(** * Shallow embedding of the fetch, feed, media-probe, publishing and
    dispatcher code of RSSBOTTELEGRAM (src/web.py, src/parsing/tgraph.py,
    src/helpers/queue/_helper.py). *)

From Stdlib Require Import List Bool ZArith QArith Lia String Ascii.
Import ListNotations.
Open Scope Z_scope.

(** ** Python exceptions

    The classes raised or caught by the modelled code, with their bases as in
    CPython 3.8 to 3.10 and aiohttp ([asyncio.CancelledError] derives from
    [BaseException] only; [asyncio.TimeoutError] is a class of its own). *)
Module Py.

Inductive pyexc :=
| BaseException | Exception_ | CancelledError | KeyboardInterrupt | SystemExit
| ArithmeticError | OverflowError | ValueError | AttributeError | TypeError
| AssertionError | RuntimeError | RecursionError
| OSError | ConnectionError | TimeoutError | SSLError
| AsyncioTimeoutError
| ClientError | InvalidURL | ClientConnectionError | ClientOSError
| ServerConnectionError | DNSError | TelegraphError.

Scheme Equality for pyexc.

(** Direct bases of each class ([__bases__]). *)
Definition bases (e : pyexc) : list pyexc :=
  match e with
  | BaseException => []
  | Exception_ | CancelledError | KeyboardInterrupt | SystemExit => [BaseException]
  | ArithmeticError | ValueError | AttributeError | TypeError
  | AssertionError | RuntimeError | OSError | AsyncioTimeoutError
  | ClientError | DNSError | TelegraphError => [Exception_]
  | OverflowError => [ArithmeticError]
  | RecursionError => [RuntimeError]
  | ConnectionError | TimeoutError | SSLError => [OSError]
  | InvalidURL => [ClientError; ValueError]
  | ClientConnectionError => [ClientError]
  | ClientOSError => [ClientConnectionError; OSError]
  | ServerConnectionError => [ClientConnectionError]
  end.

Fixpoint subclass_fuel (n : nat) (c d : pyexc) : bool :=
  pyexc_beq c d ||
  match n with
  | O => false
  | S n' => existsb (fun p => subclass_fuel n' p d) (bases c)
  end.

(** [issubclass c d]; the hierarchy above is at most 4 levels deep. *)
Definition issubclass (c d : pyexc) : bool := subclass_fuel 5 c d.

(** [except (d1, d2, ...)] catches [c]. *)
Definition catches (ds : list pyexc) (c : pyexc) : bool :=
  existsb (issubclass c) ds.

End Py.
Import Py.


(** ** Python values shared by the modules *)

(** A Python call either returns a value or raises. *)
Inductive py_result (A : Type) := Ok (a : A) | Raise (e : pyexc).
Arguments Ok {A} a.
Arguments Raise {A} e.

(** [logging] levels. *)
Definition DEBUG : Z := 10.
Definition WARNING : Z := 30.
Definition ERROR : Z := 40.

Definition ascii_lower (c : ascii) : ascii :=
  let n := nat_of_ascii c in
  if andb (Nat.leb 65 n) (Nat.leb n 90) then ascii_of_nat (n + 32) else c.

Fixpoint lower (s : string) : string :=
  match s with
  | EmptyString => EmptyString
  | String c s' => String (ascii_lower c) (lower s')
  end.

(** Python truthiness of an [Optional[str]]: [None] and [''] are false. *)
Definition truthy (s : option string) : bool :=
  match s with
  | Some v => negb (String.eqb v EmptyString)
  | None => false
  end.

(** [str.startswith]. *)
Definition startswith (s pre : string) : bool := String.prefix pre s.

(** Response headers ([CIMultiDictProxy]): [get] returns the value of the
    first entry whose key matches case-insensitively. *)
Definition headers := list (string * string).

Fixpoint header_get (h : headers) (k : string) : option string :=
  match h with
  | [] => None
  | (k', v) :: h' => if String.eqb (lower k') (lower k) then Some v else header_get h' k
  end.

(** [int(s)] on a [str]: surrounding whitespace, an optional sign, decimal
    digits with single underscores between them; anything else raises
    [ValueError] ([None] here). *)
Definition is_py_space (c : ascii) : bool :=
  match nat_of_ascii c with
  | 32 | 9 | 10 | 11 | 12 | 13 => true
  | _ => false
  end%nat.

Fixpoint lstrip (l : list ascii) : list ascii :=
  match l with
  | c :: l' => if is_py_space c then lstrip l' else l
  | [] => []
  end.

Definition strip (l : list ascii) : list ascii := rev (lstrip (rev (lstrip l))).

Definition digit_value (c : ascii) : option Z :=
  let n := nat_of_ascii c in
  if andb (Nat.leb 48 n) (Nat.leb n 57) then Some (Z.of_nat (n - 48)) else None.

(** [st]: 0 at the start, 1 after a digit, 2 after an underscore. *)
Fixpoint parse_digits (st : nat) (acc : Z) (l : list ascii) : option Z :=
  match l with
  | [] => if Nat.eqb st 1 then Some acc else None
  | c :: l' =>
    match digit_value c with
    | Some d => parse_digits 1 (acc * 10 + d) l'
    | None =>
      if andb (Ascii.eqb c "_"%char) (Nat.eqb st 1) then parse_digits 2 acc l'
      else None
    end
  end.

Definition py_int (s : string) : option Z :=
  match strip (list_ascii_of_string s) with
  | c :: l =>
    if Ascii.eqb c "-"%char then option_map Z.opp (parse_digits 0 0 l)
    else if Ascii.eqb c "+"%char then parse_digits 0 0 l
    else parse_digits 0 0 (c :: l)
  | [] => None
  end.

(** Decimal rendering of an [int] ([f'{n}']). *)
Fixpoint digits_of_nat (fuel n : nat) (acc : string) : string :=
  match fuel with
  | O => acc
  | S fuel' =>
    let acc' := String (ascii_of_nat (48 + n mod 10)) acc in
    if Nat.ltb n 10 then acc' else digits_of_nat fuel' (n / 10) acc'
  end.

Definition z_to_string (z : Z) : string :=
  let n := Z.to_nat (Z.abs z) in
  let d := digits_of_nat (S n) n EmptyString in
  if z <? 0 then String "-"%char d else d.


(** ** [urllib.parse] (CPython 3.9/3.10, ASCII input)

    [urlsplit] with the removal of tab, CR and LF, the scheme, the netloc
    and its bracket check, the fragment and the query; [urlparse] adds the
    [;params] split; [hostname] follows [_hostinfo]. Strings are handled as
    [list ascii]. *)
Module UrlLib.

Definition chars := list ascii.

Fixpoint find_char_from (i : nat) (c : ascii) (l : chars) : option nat :=
  match l with
  | [] => None
  | x :: l' => if Ascii.eqb x c then Some i else find_char_from (S i) c l'
  end.

(** [s.find(c)] *)
Definition find_char (c : ascii) (l : chars) : option nat := find_char_from 0 c l.

(** [s.find(c, start)] *)
Definition find_char_at (c : ascii) (l : chars) (start : nat) : option nat :=
  option_map (fun i => i + start)%nat (find_char c (skipn start l)).

(** [s.rfind(c)] *)
Definition rfind_char (c : ascii) (l : chars) : option nat :=
  match find_char c (rev l) with
  | Some j => Some (List.length l - S j)%nat
  | None => None
  end.

Definition mem (c : ascii) (l : chars) : bool := existsb (Ascii.eqb c) l.

(** [s.partition(c)]: before, whether found, after. *)
Definition partition (c : ascii) (l : chars) : chars * bool * chars :=
  match find_char c l with
  | Some i => (firstn i l, true, skipn (S i) l)
  | None => (l, false, [])
  end.

(** [s.rpartition(c)] *)
Definition rpartition (c : ascii) (l : chars) : chars * bool * chars :=
  match rfind_char c l with
  | Some i => (firstn i l, true, skipn (S i) l)
  | None => ([], false, l)
  end.

Definition is_alpha (c : ascii) : bool :=
  let n := nat_of_ascii c in
  ((Nat.leb 65 n && Nat.leb n 90) || (Nat.leb 97 n && Nat.leb n 122))%bool.

Definition is_digit (c : ascii) : bool :=
  let n := nat_of_ascii c in (Nat.leb 48 n && Nat.leb n 57)%bool.

(** [scheme_chars]: letters, digits and [+-.]. *)
Definition is_scheme_char (c : ascii) : bool :=
  (is_alpha c || is_digit c || mem c (list_ascii_of_string "+-."))%bool.

Definition lower_chars (l : chars) : chars := map ascii_lower l.

Record SplitResult := mkSplit {
  scheme : chars; netloc : chars; path : chars; query : chars; fragment : chars }.

(** [_splitnetloc(url, 2)] *)
Definition splitnetloc (url : chars) : chars * chars :=
  let delim := fold_left (fun d c => match find_char_at c url 2 with
                                     | Some w => Nat.min d w
                                     | None => d
                                     end)
                         (list_ascii_of_string "/?#") (List.length url) in
  (firstn (delim - 2) (skipn 2 url), skipn delim url).

Definition urlsplit (url0 : chars) : py_result SplitResult :=
  let url := filter (fun c => negb (mem c [ascii_of_nat 9; ascii_of_nat 13; ascii_of_nat 10])) url0 in
  let '(scheme, url) :=
    match find_char ":"%char url with
    | Some (S _ as i) =>
      match url with
      | c0 :: _ =>
        if is_alpha c0 && forallb is_scheme_char (firstn i url)
        then (lower_chars (firstn i url), skipn (S i) url)
        else ([], url)
      | [] => ([], url)
      end
    | _ => ([], url)
    end in
  let netloc_url :=
    match url with
    | "/"%char :: "/"%char :: _ =>
      let '(netloc, url) := splitnetloc url in
      if (mem "["%char netloc && negb (mem "]"%char netloc))
         || (mem "]"%char netloc && negb (mem "["%char netloc))
      then Raise ValueError
      else Ok (netloc, url)
    | _ => Ok ([], url)
    end in
  match netloc_url with
  | Raise e => Raise e
  | Ok (netloc, url) =>
    let '(url, fragment) :=
      match partition "#"%char url with
      | (u, true, f) => (u, f)
      | (u, false, _) => (u, [])
      end in
    let '(url, query) :=
      match partition "?"%char url with
      | (u, true, q) => (u, q)
      | (u, false, _) => (u, [])
      end in
    Ok (mkSplit scheme netloc url query fragment)
  end.

Definition uses_params : list string :=
  [EmptyString; "ftp"; "hdl"; "prospero"; "http"; "imap"; "https"; "shttp"; "rtsp";
   "rtspu"; "sip"; "sips"; "mms"; "sftp"; "tel"]%string.

(** [_splitparams(url)]: the part before the parameters. *)
Definition splitparams (url : chars) : chars :=
  if mem "/"%char url then
    match rfind_char "/"%char url with
    | Some r =>
      match find_char_at ";"%char url r with
      | Some i => firstn i url
      | None => url
      end
    | None => url
    end
  else match find_char ";"%char url with
       | Some i => firstn i url
       | None => url
       end.

(** [urlparse(url)]: here only the fields [get_page_title] reads. *)
Definition urlparse (url : chars) : py_result SplitResult :=
  match urlsplit url with
  | Raise e => Raise e
  | Ok sr =>
    if existsb (String.eqb (string_of_list_ascii sr.(scheme))) uses_params
       && mem ";"%char sr.(path)
    then Ok (mkSplit sr.(scheme) sr.(netloc) (splitparams sr.(path)) sr.(query) sr.(fragment))
    else Ok sr
  end.

(** The [hostname] property, through [_hostinfo]. *)
Definition hostname (sr : SplitResult) : option chars :=
  let '(_, _, hostinfo) := rpartition "@"%char sr.(netloc) in
  let '(_, have_open_br, bracketed) := partition "["%char hostinfo in
  let host :=
    if have_open_br then let '(h, _, _) := partition "]"%char bracketed in h
    else let '(h, _, _) := partition ":"%char hostinfo in h in
  match host with
  | [] => None
  | _ => let '(h, pct, zone) := partition "%"%char host in
         Some (lower_chars h ++ (if pct then ["%"%char] else []) ++ zone)
  end.

(** [path.rsplit('/', 1)[-1]] *)
Definition path_tail (p : chars) : chars :=
  match rpartition "/"%char p with
  | (_, _, tail) => tail
  end.

End UrlLib.

(** ** src/web.py *)
Module Web.

(** Socket families: [0], [AF_INET], [AF_INET6]. *)
Inductive family := AF_UNSPEC | AF_INET | AF_INET6.

Definition family_beq (a b : family) : bool :=
  match a, b with
  | AF_UNSPEC, AF_UNSPEC | AF_INET, AF_INET | AF_INET6, AF_INET6 => true
  | _, _ => false
  end.

(** [EXCEPTIONS_SHOULD_RETRY] *)
Definition EXCEPTIONS_SHOULD_RETRY : list pyexc :=
  [AsyncioTimeoutError; ServerConnectionError; TimeoutError].

(** The statuses that make a first IPv6 attempt fall back to IPv4. *)
Definition blocked_status (st : Z) : bool :=
  (st =? 400) || (st =? 403) || (st =? 429) || (st =? 451).

(** What one pass through the [async with ... session.get(url)] block does
    (after the transport's own retries): a response with its status, or an
    exception escaping the block. *)
Inductive attempt := AttResp (status : Z) | AttRaise (e : pyexc).

(** Outcome of [_get]: a [WebResponse] (status and the family it was fetched
    with), an exception, the failed [assert tries <= 2], or [GetNoFuel] when
    the model's loop bound is exhausted ([while True] in the source). *)
Inductive get_result :=
| GetReturn (status : Z) (fam : family)
| GetRaise (e : pyexc)
| GetAssertFail
| GetNoFuel.

Section Fetch.

(** [attempt_at tries family]: the outcome of the [tries]-th pass when it
    connects with [family]. *)
Variable attempt_at : nat -> family -> attempt.

(** The [while True] loop of [_get], from [tries = 0]. Returns the outcome
    and the families of the connection attempts made, in order. *)
Fixpoint get_loop (fuel : nat) (tries : nat) (retry_in_v4_flag : bool)
    (socket_family : family) : get_result * list family :=
  match fuel with
  | O => (GetNoFuel, [])
  | S fuel' =>
    let tries := S tries in
    if negb (Nat.leb tries 2) then (GetAssertFail, []) else
    let socket_family := if retry_in_v4_flag then AF_INET else socket_family in
    match attempt_at tries socket_family with
    | AttResp status =>
      if status =? 200 then (GetReturn status socket_family, [socket_family])
      else if family_beq socket_family AF_INET6 && Nat.eqb tries 1
              && blocked_status status then
        let (r, fams) := get_loop fuel' tries true socket_family in
        (r, socket_family :: fams)
      else (GetReturn status socket_family, [socket_family])
    | AttRaise e =>
      if catches EXCEPTIONS_SHOULD_RETRY e then
        if negb (family_beq socket_family AF_INET6) || Nat.ltb 1 tries
        then (GetRaise e, [socket_family])
        else
          let (r, fams) := get_loop fuel' tries true socket_family in
          (r, socket_family :: fams)
      else (GetRaise e, [socket_family])
    end
  end.

(** [_get]: [v6_address] is whether the AAAA lookup (done only when
    [IPV6_PRIOR]) returned an address. *)
Definition _get (fuel : nat) (v6_address : bool) : get_result * list family :=
  get_loop fuel 0 false (if v6_address then AF_INET6 else AF_UNSPEC).

End Fetch.

(** What [__norm_callback] reads from the body: [response.text()],
    [response.read()], or [response.content.read(n)]. *)
Inductive body_read := ReadText | ReadAll | ReadUpTo (n : Z).

(** [__norm_callback(response, decode, max_size, intended_content_type)];
    [Ok None] is [return None]. The default [str(max_size)] of the
    [Content-Length] lookup parses back to [max_size]. *)
Definition __norm_callback (hdrs : headers) (decode : bool) (max_size : option Z)
    (intended_content_type : option string) : py_result (option body_read) :=
  let content_type := header_get hdrs "Content-Type" in
  if negb (truthy intended_content_type) || negb (truthy content_type)
     || match content_type, intended_content_type with
        | Some ct, Some ict => startswith ct ict
        | _, _ => false
        end
  then
    if decode then Ok (Some ReadText)
    else match max_size with
         | None => Ok (Some ReadAll)
         | Some m =>
           if 0 <? m then
             match match header_get hdrs "Content-Length" with
                   | Some v => py_int v
                   | None => Some m
                   end with
             | Some cl => Ok (Some (ReadUpTo (Z.min cl m)))
             | None => Raise ValueError
             end
           else Ok None
         end
  else Ok None.

(** [WebError]: the fields the feed path sets. *)
Record WebError := mkWebError {
  error_name : string;
  error_status : option string;
  base_error : option pyexc;
  log_level : Z }.

(** [WebResponse] as returned by [get] ([content] is the raw body). *)
Record WebResponse := mkWebResponse {
  resp_url : string;
  resp_content : option string;
  resp_headers : headers;
  resp_status : Z;
  resp_reason : option string }.

Section FeedGet.

(** The parsed structure of [feedparser], [feedparser.parse] (which may
    raise) and the test ['title' in rss_d.feed]. *)
Variable FeedParserDict : Type.
Variable feedparser_parse : string -> py_result FeedParserDict.
Variable has_title : FeedParserDict -> bool.

Record WebFeed := mkWebFeed {
  feed_url : string;
  feed_headers : option headers;
  feed_status : Z;
  feed_reason : option string;
  rss_d : option FeedParserDict;
  error : option WebError }.

Definition set_status (r : WebFeed) (st : Z) : WebFeed :=
  mkWebFeed r.(feed_url) r.(feed_headers) st r.(feed_reason) r.(rss_d) r.(error).
Definition set_rss_d (r : WebFeed) (d : FeedParserDict) : WebFeed :=
  mkWebFeed r.(feed_url) r.(feed_headers) r.(feed_status) r.(feed_reason) (Some d) r.(error).
Definition set_error (r : WebFeed) (e : WebError) : WebFeed :=
  mkWebFeed r.(feed_url) r.(feed_headers) r.(feed_status) r.(feed_reason) r.(rss_d) (Some e).

(** How the [try] block of [feed_get] ends: by [return ret], or by an
    exception, with [ret] as the block left it. *)
Inductive try_exit := TryReturn (r : WebFeed) | TryRaise (r : WebFeed) (e : pyexc).

(** The [try] block of [feed_get]; [get_outcome] is what
    [await get(url, timeout, web_semaphore, headers=_headers)] produced. *)
Definition feed_get_try (url : string) (log_lvl : Z)
    (get_outcome : py_result WebResponse) : try_exit :=
  let ret := mkWebFeed url None (-1) None None None in
  match get_outcome with
  | Raise e => TryRaise ret e
  | Ok resp =>
    let ret := mkWebFeed resp.(resp_url) (Some resp.(resp_headers)) resp.(resp_status)
                 None None None in
    let content_length_zero :=
      if resp.(resp_status) =? 200 then
        match py_int (match header_get resp.(resp_headers) "Content-Length" with
                      | Some v => v
                      | None => "1"
                      end) with
        | Some n => Ok (n =? 0)
        | None => Raise ValueError
        end
      else Ok false in
    match content_length_zero with
    | Raise e => TryRaise ret e
    | Ok true => TryReturn (set_status ret 304)
    | Ok false =>
      if resp.(resp_status) =? 304 then TryReturn ret else
      match resp.(resp_content) with
      | None =>
        let status_caption :=
          (z_to_string resp.(resp_status) ++
           match resp.(resp_reason) with
           | Some reason => if String.eqb reason EmptyString then EmptyString
                            else " " ++ reason
           | None => EmptyString
           end)%string in
        TryReturn (set_error ret (mkWebError "status code error" (Some status_caption)
                                             None log_lvl))
      | Some rss_content =>
        match feedparser_parse rss_content with
        | Raise e => TryRaise ret e
        | Ok d =>
          if has_title d then TryReturn (set_rss_d ret d)
          else TryReturn (set_error ret (mkWebError "feed invalid" None None log_lvl))
        end
      end
    end
  end.

(** [feed_get(url, timeout, web_semaphore, headers, verbose)]: the [try]
    block and its [except] clauses. *)
Definition feed_get (url : string) (verbose : bool)
    (get_outcome : py_result WebResponse) : py_result WebFeed :=
  let log_lvl := if verbose then WARNING else DEBUG in
  match feed_get_try url log_lvl get_outcome with
  | TryReturn r => Ok r
  | TryRaise r e =>
    if catches [InvalidURL] e then
      Ok (set_error r (mkWebError "URL invalid" None None log_lvl))
    else if catches [AsyncioTimeoutError; ClientError; SSLError; OSError;
                     ConnectionError; TimeoutError] e then
      Ok (set_error r (mkWebError "network error" None (Some e) log_lvl))
    else if catches [Exception_] e then
      Ok (set_error r (mkWebError "internal error" None (Some e) ERROR))
    else Raise e
  end.

End FeedGet.

(** *** [get]: the outer deadline *)
Section Get.

(** [_get] run with a given [timeout]: how long it takes (seconds) and what
    it returns or raises. *)
Variable run__get : Q -> Q * py_result WebResponse.

(** [if not timeout: timeout = 12] *)
Definition effective_timeout (timeout : option Q) : Q :=
  match timeout with
  | Some t => if Qeq_bool t 0 then 12%Q else t
  | None => 12%Q
  end.

(** [wait_for_timeout = (timeout * 2 + 5) * (2 if env.IPV6_PRIOR else 1)] *)
Definition wait_for_timeout (timeout : option Q) (IPV6_PRIOR : bool) : Q :=
  ((effective_timeout timeout * 2 + 5) * (if IPV6_PRIOR then 2 else 1))%Q.

(** [get]: [asyncio.wait_for(_get(...), wait_for_timeout)] cancels [_get]
    and raises [asyncio.TimeoutError] once the deadline has passed. *)
Definition get (timeout : option Q) (IPV6_PRIOR : bool) : py_result WebResponse :=
  let t := effective_timeout timeout in
  let (elapsed, outcome) := run__get t in
  if Qle_bool elapsed (wait_for_timeout timeout IPV6_PRIOR) then outcome
  else Raise AsyncioTimeoutError.

End Get.

(** *** [__medium_info_callback] *)

(** [bytes] as a list of byte values. *)
Definition bytes := list Z.

Fixpoint bytes_prefix (pre s : bytes) : bool :=
  match pre, s with
  | [], _ => true
  | x :: pre', y :: s' => (x =? y) && bytes_prefix pre' s'
  | _ :: _, [] => false
  end.

Fixpoint find_from (i : Z) (hay sub : bytes) : Z :=
  if bytes_prefix sub hay then i
  else match hay with
       | [] => -1
       | _ :: hay' => find_from (i + 1) hay' sub
       end.

(** [bytes.find(sub)]: the lowest index of [sub], or [-1]. *)
Definition find (hay sub : bytes) : Z := find_from 0 hay sub.

(** [b[i:j]] for [0 <= i <= j]. *)
Definition slice (b : bytes) (i j : Z) : bytes :=
  firstn (Z.to_nat (j - i)) (skipn (Z.to_nat i) b).

(** [b.hex()] as hex digit values, two per byte. *)
Definition hex (b : bytes) : list Z :=
  flat_map (fun x => [x / 16; x mod 16]) b.

(** [int(s, 16)] on hex digits; [int('', 16)] raises. *)
Definition int_hex (ds : list Z) : option Z :=
  match ds with
  | [] => None
  | _ => Some (fold_left (fun acc d => acc * 16 + d) ds 0)
  end.

(** The three start-of-frame markers, in the order the loop tries them. *)
Definition jpeg_markers : list bytes := [[255; 194]; [255; 193]; [255; 192]].

(** [for marker in (...): p = file_header.find(marker); if p != -1: pointer = p; break] *)
Fixpoint first_marker (file_header : bytes) (markers : list bytes) : Z :=
  match markers with
  | [] => -1
  | marker :: ms =>
    let p := find file_header marker in
    if negb (p =? -1) then p else first_marker file_header ms
  end.

(** The JPEG fallback of the [except Exception] branch: [Some (width, height)]
    when it returns. *)
Definition jpeg_sof_size (file_header : bytes) : option (Z * Z) :=
  let pointer := first_marker file_header jpeg_markers in
  if negb (pointer =? -1) && (pointer + 9 <=? Z.of_nat (List.length file_header)) then
    match int_hex (hex (slice file_header (pointer + 7) (pointer + 9))),
          int_hex (hex (slice file_header (pointer + 5) (pointer + 7))) with
    | Some width, Some height => Some (width, height)
    | _, _ => None
    end
  else None.

(** [PIL.Image.open(buffer).size]: a size, [UnidentifiedImageError], or another
    exception. *)
Inductive decode_result := DecSize (w h : Z) | DecUnidentified | DecOther (e : pyexc).

Section MediumInfo.

Variable pil_open : bytes -> decode_result.

(** The [async for chunk in response.content.iter_chunked(128)] loop. Returns
    the result and the number of chunks read. *)
Fixpoint medium_info_loop (is_jpeg : bool) (max_read_length already_read : Z)
    (buffer : bytes) (chunks : list bytes) : (Z * Z) * nat :=
  match chunks with
  | [] => ((-1, -1), O)
  | chunk :: rest =>
    let already_read := already_read + Z.of_nat (List.length chunk) in
    let buffer := buffer ++ chunk in
    let continue_ (u : unit) :=
      if already_read >=? max_read_length then ((-1, -1), 1%nat)
      else let (r, n) := medium_info_loop is_jpeg max_read_length already_read buffer rest in
           (r, S n) in
    match pil_open buffer with
    | DecSize width height => ((width, height), 1%nat)
    | DecUnidentified => ((-1, -1), 1%nat)
    | DecOther _ =>
      if is_jpeg then
        match jpeg_sof_size buffer with
        | Some wh => (wh, 1%nat)
        | None => continue_ tt
        end
      else continue_ tt
    end
  end.

End MediumInfo.

(** [sub in s] for strings. *)
Definition str_contains (s sub : string) : bool :=
  match String.index 0 sub s with Some _ => true | None => false end.

Definition get_default (hdrs : headers) (k d : string) : string :=
  match header_get hdrs k with Some v => v | None => d end.

(** [__medium_info_callback(response)]; [chunks] are the pieces yielded by
    [response.content.iter_chunked(128)]. *)
Definition __medium_info_callback (pil_open : bytes -> decode_result)
    (hdrs : headers) (chunks : list bytes) : py_result (Z * Z) :=
  let content_type := lower (get_default hdrs "Content-Type" EmptyString) in
  match py_int (get_default hdrs "Content-Length" "1024") with
  | None => Raise ValueError
  | Some content_length =>
    let max_read_length := Z.min content_length (5 * 1024) in
    let webp := str_contains content_type "webp" in
    if negb ((startswith content_type "image" && negb webp)
             || ((webp || String.eqb content_type "application/octet-stream")
                 && (content_length <=? max_read_length)))
    then Ok (-1, -1)
    else
      let is_jpeg := startswith content_type "image/jpeg" in
      Ok (fst (medium_info_loop pil_open is_jpeg max_read_length 0 [] chunks))
  end.

(** *** [get_page_title] *)

(** [contentDispositionFilenameParser(s)], that is
    [partial(re.compile(...).search, flags=re.I)(s)]: it calls the compiled
    pattern's [search(string, pos, endpos)] with the keyword argument
    [flags], which that method does not accept, so every call raises
    [TypeError] before anything is matched. *)
Definition contentDispositionFilenameParser (s : string) : py_result (option string) :=
  Raise TypeError.

Fixpoint rstrip_rev (l : list ascii) : list ascii :=
  match l with
  | c :: l' => if is_py_space c then rstrip_rev l' else l
  | [] => []
  end.

(** How the [try] block of [get_page_title] ends: with a title, or by an
    exception, [r] being the response if [get] had returned one. *)
Inductive title_try := TitleReturn (t : string) | TitleRaise (r : option WebResponse) (e : pyexc).

Section PageTitle.

(** [BeautifulSoup(content, 'lxml').title.text]; [None] when the document has
    no [title] element ([.text] of [None] raises [AttributeError]). *)
Variable soup_title_text : string -> option string.

(** [get_outcome] is [await get(url=url, timeout=2, decode=True,
    intended_content_type='text/html')]; [resp_content] is the decoded text. *)
Definition page_title_try (get_outcome : py_result WebResponse) : title_try :=
  match get_outcome with
  | Raise e => TitleRaise None e
  | Ok r =>
    match r.(resp_content) with
    | Some c =>
      if negb (r.(resp_status) =? 200) || String.eqb c EmptyString then TitleRaise (Some r) ValueError
      else if Nat.leb (String.length c) 27 then TitleRaise (Some r) ValueError
      else match soup_title_text c with
           | Some title => TitleReturn (string_of_list_ascii (strip (list_ascii_of_string title)))
           | None => TitleRaise (Some r) AttributeError
           end
    | None => TitleRaise (Some r) ValueError
    end
  end.

(** [get_page_title(url, allow_hostname, allow_path, allow_filename)]:
    [Ok None] is a return of [None] (also by falling off the end). This is
    the first call with these arguments: [@lru_cache] keeps the coroutine
    object, and awaiting it again raises [RuntimeError]. *)
Definition get_page_title (url : string) (allow_hostname allow_path allow_filename : bool)
    (get_outcome : py_result WebResponse) : py_result (option string) :=
  match page_title_try get_outcome with
  | TitleReturn t => Ok (Some t)
  | TitleRaise r e =>
    if negb (catches [Exception_] e) then Raise e else
    let content_disposition :=
      match r with Some r => header_get r.(resp_headers) "Content-Disposition" | None => None end in
    let filename_match :=
      if truthy content_disposition then
        match content_disposition with
        | Some cd => contentDispositionFilenameParser cd
        | None => Ok None
        end
      else Ok None in
    let fallback (u : unit) :=
      match UrlLib.urlparse (list_ascii_of_string url) with
      | Raise e' => Raise e'
      | Ok url_parsed =>
        if allow_path then
          match url_parsed.(UrlLib.path) with
          | [] => Ok None
          | p => Ok (Some (string_of_list_ascii (UrlLib.path_tail p)))
          end
        else if allow_hostname then
          Ok (option_map string_of_list_ascii (UrlLib.hostname url_parsed))
        else Ok None
      end in
    match filename_match with
    | Raise e' => Raise e'
    | Ok (Some m) => if allow_filename then Ok (Some m) else fallback tt
    | Ok None => fallback tt
    end
  end.

End PageTitle.

End Web.
Import Web.


(** ** src/parsing/tgraph.py *)
Module Tgraph.

(** The [_fc_lock] of an account: free, held by [flood_wait] sleeping until
    the given time (seconds), or held while [create_account] is awaited. *)
Inductive fc_lock := Unlocked | HeldUntil (t : Z) | HeldCreating.

(** A [Telegraph] account: its token (an abstract identity) and its
    flood-control lock. *)
Record Telegraph := mkTelegraph { token : nat; fc : fc_lock }.

(** [self._fc_lock.locked()] at time [now]. *)
Definition locked (now : Z) (a : Telegraph) : bool :=
  match a.(fc) with
  | Unlocked => false
  | HeldUntil t => now <? t
  | HeldCreating => true
  end.

(** What [flood_wait] does after its lock test. *)
Inductive flood_action :=
| AlreadyBlocking
| SleepFor (secs : Z)
| NewAccount.

(** [Telegraph.flood_wait(retry_after)] called at [now]: the action and the
    account as it is while the action runs. While [create_account] is
    awaited the lock is held and the token is still the old one. *)
Definition flood_wait (now : Z) (a : Telegraph) (retry_after : Z)
    : flood_action * Telegraph :=
  if locked now a then (AlreadyBlocking, a)
  else
    let retry_after := retry_after + 1 in
    if retry_after >=? 60 then (NewAccount, mkTelegraph a.(token) HeldCreating)
    else (SleepFor retry_after, mkTelegraph a.(token) (HeldUntil (now + retry_after))).

(** How [flood_wait] ends once its action is over, from the account [a]
    before the call: its result and the account after it. [created] is the
    outcome of [await self.create_account(...)], which on success sets the
    account's token to the new one ([Ok tok]) and otherwise raises; leaving
    [async with self._fc_lock] releases the lock either way, and the
    exception propagates to the caller. *)
Definition flood_wait_end (a : Telegraph) (act : flood_action) (created : py_result nat)
    : py_result unit * Telegraph :=
  match act with
  | AlreadyBlocking => (Ok tt, a)
  | SleepFor _ => (Ok tt, mkTelegraph a.(token) Unlocked)
  | NewAccount =>
    match created with
    | Ok tok => (Ok tt, mkTelegraph tok Unlocked)
    | Raise e => (Raise e, mkTelegraph a.(token) Unlocked)
    end
  end.

(** [async with self._fc_lock: pass] at the start of [create_page], entered
    at time [t]: the time it gets past the lock, [None] while it waits for
    [create_account] to return. *)
Definition create_page_gate (t : Z) (a : Telegraph) : option Z :=
  match a.(fc) with
  | Unlocked => Some t
  | HeldUntil u => Some (Z.max t u)
  | HeldCreating => None
  end.

(** What [telegraph_account.create_page(...)] does on one attempt. *)
Inductive create_outcome :=
| PageCreated (url : string)
| FloodWait (retry_after : Z)   (* TelegraphError('FLOOD_WAIT_<n>') *)
| OtherTelegraphError           (* any other TelegraphError *)
| TimedOut (e : pyexc)          (* TimeoutError, asyncio.TimeoutError *)
| NetworkFailure (e : pyexc).   (* ClientError, ConnectionError *)

(** How [telegraph_ify] ends: a return value ([None] is [rets[0]] of the
    flood path, the result of [flood_wait]), an exception, or [TNoFuel] when
    the model's recursion bound is exhausted. *)
Inductive tify_result := TReturn (v : option string) | TRaise (e : pyexc) | TNoFuel.

Section TelegraphIfy.

(** [create_page_at k]: the outcome of the [k]-th call to [create_page]
    (from 0). *)
Variable create_page_at : nat -> create_outcome.

(** [flood_wait_at k]: the exception raised by the [flood_wait] started after
    the [k]-th call to [create_page] answered with flood control ([None]: it
    returns [None]); by [flood_wait] and [flood_wait_end] it raises only when
    [create_account] raises. *)
Variable flood_wait_at : nat -> option pyexc.

(** [flood_wait_first k]: when both awaitables of that [asyncio.gather] raise,
    whether the exception of [flood_wait] is raised first (and so is the one
    [gather] propagates). *)
Variable flood_wait_first : nat -> bool.

(** [TelegraphIfy.telegraph_ify] with [self.retries = retries] after
    [attempts] calls of [create_page]; returns the outcome and the number of
    [create_page] calls made in total (a child of [gather] is not cancelled
    when the other one raises, so its calls are counted too). On flood
    control, [asyncio.gather(flood_wait(...), self.telegraph_ify())]
    propagates the first exception raised by either awaitable and otherwise
    returns [rets[0]], the [None] of [flood_wait]. *)
Fixpoint telegraph_ify (fuel : nat) (retries attempts : nat) : tify_result * nat :=
  match fuel with
  | O => (TNoFuel, attempts)
  | S fuel' =>
    if Nat.leb 3 retries then (TRaise OverflowError, attempts) else
    match create_page_at attempts with
    | PageCreated url => (TReturn (Some url), S attempts)
    | FloodWait _ =>
      let (r, n) := telegraph_ify fuel' (S retries) (S attempts) in
      match flood_wait_at attempts, r with
      | _, TNoFuel => (TNoFuel, n)
      | Some e, TRaise e' => (TRaise (if flood_wait_first attempts then e else e'), n)
      | Some e, TReturn _ => (TRaise e, n)
      | None, TRaise e' => (TRaise e', n)
      | None, TReturn _ => (TReturn None, n)
      end
    | OtherTelegraphError => (TRaise TelegraphError, S attempts)
    | TimedOut e => (TRaise e, S attempts)
    | NetworkFailure e =>
      if Nat.ltb retries 3 then telegraph_ify fuel' retries (S attempts)
      else (TRaise e, S attempts)
    end
  end.

End TelegraphIfy.

End Tgraph.

(** ** src/helpers/queue/_helper.py *)
Module QueuedHelper.

(** A queue entry: [(args, kwargs)] (the arguments as an abstract value) or
    the stop sentinel [(None, None)]. *)
Inductive entry := Work (args : nat) | Sentinel.

(** The consumer task: running (possibly waiting in [queue.get()]), running
    with a pending [cancel()], finished normally, or finished cancelled. *)
Inductive task_state := Running | CancelRequested | DoneOk | DoneCancelled.

Definition done (t : task_state) : bool :=
  match t with DoneOk | DoneCancelled => true | _ => false end.

Record QH := mkQH {
  queue : list entry;
  maxsize : Z;
  consumer_task : option task_state;
  spawned : list nat }.   (* arguments of the tasks [_consumer] created *)

Definition full (s : QH) : bool :=
  (0 <? s.(maxsize)) && (s.(maxsize) <=? Z.of_nat (List.length s.(queue))).

Definition set_queue (s : QH) (q : list entry) : QH :=
  mkQH q s.(maxsize) s.(consumer_task) s.(spawned).
Definition set_task (s : QH) (t : task_state) : QH :=
  mkQH s.(queue) s.(maxsize) (Some t) s.(spawned).

(** [close_sync()]: the new state and the returned [bool]. [put_nowait] on a
    full queue raises [QueueFull], which is caught ([return False]). *)
Definition close_sync (s : QH) : QH * bool :=
  match s.(consumer_task) with
  | None => (s, false)
  | Some t =>
    if done t then (s, false)
    else match s.(queue) with
         | [] => if full s then (s, false) else (set_queue s [Sentinel], true)
         | _ :: _ => (set_task s CancelRequested, true)
         end
  end.

Section Consumer.

(** [call_raises a]: the statement [create_task(func(...), name=...)] of the
    loop raises for the queued arguments [a] before any task exists: calling
    [func] with arguments it does not accept raises [TypeError], and
    [create_task] on a closed loop raises [RuntimeError]. Both are
    [Exception]s, caught by the loop's [except Exception]. *)
Variable call_raises : nat -> bool.

(** One resumption of the [_consumer] task. A pending cancellation raises
    [CancelledError] at [await queue.get()]; the [except Exception] of the
    loop does not catch it, so the task ends cancelled. Otherwise the task
    takes the head of the queue: the sentinel ends the loop, a work entry is
    handed to [create_task], which starts a task for it unless the statement
    raises; the exception is logged and the entry is gone. With an empty
    queue it stays blocked. *)
Definition consumer_step (s : QH) : QH :=
  match s.(consumer_task) with
  | Some CancelRequested =>
    if catches [Exception_] CancelledError then s else set_task s DoneCancelled
  | Some Running =>
    match s.(queue) with
    | [] => s
    | Sentinel :: q => set_task (set_queue s q) DoneOk
    | Work a :: q =>
      if call_raises a then set_queue s q
      else mkQH q s.(maxsize) s.(consumer_task) (s.(spawned) ++ [a])
    end
  | _ => s
  end.

(** A producer's [queued_nowait(args)] on a queue that is not full. *)
Definition enqueue (s : QH) (a : nat) : QH :=
  if full s then s else set_queue s (s.(queue) ++ [Work a]).

Inductive event := Produce (a : nat) | ConsumerRuns.

(** One event: a producer's [queued_nowait] or a resumption of the consumer. *)
Definition step (s : QH) (ev : event) : QH :=
  match ev with
  | Produce a => enqueue s a
  | ConsumerRuns => consumer_step s
  end.

Fixpoint run (s : QH) (evs : list event) : QH :=
  match evs with
  | [] => s
  | Produce a :: evs' => run (enqueue s a) evs'
  | ConsumerRuns :: evs' => run (consumer_step s) evs'
  end.

End Consumer.

End QueuedHelper.

(** ** More of src/web.py *)

(** *** [proxy_filter] *)
Module ProxyFilter.

(** How [proxy_filter] ends; [PIndexError] is an [IndexError] of
    [hostname[-len(domain) - 1]]. *)
Inductive proxy_result := PRet (b : bool) | PRaise (e : pyexc) | PIndexError.

(** [str.endswith]. *)
Fixpoint chars_prefix (p s : list ascii) : bool :=
  match p, s with
  | [], _ => true
  | a :: p', b :: s' => Ascii.eqb a b && chars_prefix p' s'
  | _ :: _, [] => false
  end.

Definition endswith (s suffix : string) : bool :=
  chars_prefix (rev (list_ascii_of_string suffix)) (rev (list_ascii_of_string s)).

(** [s[-k]]: defined for [1 <= k <= len(s)]. *)
Definition index_from_end (s : string) (k : nat) : option ascii :=
  if Nat.leb 1 k && Nat.leb k (String.length s) then
    nth_error (rev (list_ascii_of_string s)) (k - 1)
  else None.

Section ProxyFilterSec.

(** [env.PROXY_BYPASS_PRIVATE] and [env.PROXY_BYPASS_DOMAINS] (an empty
    list is falsy). *)
Variable PROXY_BYPASS_PRIVATE : bool.
Variable PROXY_BYPASS_DOMAINS : list string.

(** [ip_a = ip_address(hostname)] and
    [any(ip_a in network for network in PRIVATE_NETWORKS)] for a [str]:
    [None] when [ip_address] raises [ValueError] (not an IP address). *)
Variable ip_is_private : string -> option bool.

(** The generator of the [any(...)] over [PROXY_BYPASS_DOMAINS], evaluated
    lazily; [hostname] is [None] when the URL has no host
    ([None.endswith] raises [AttributeError]). *)
Fixpoint any_bypassed (hostname : option string) (domains : list string) : proxy_result :=
  match domains with
  | [] => PRet false
  | domain :: ds =>
    match hostname with
    | None => PRaise AttributeError
    | Some h =>
      if endswith h domain then
        if String.eqb h domain then PRet true
        else match index_from_end h (String.length domain + 1) with
             | Some c => if Ascii.eqb c "."%char then PRet true else any_bypassed hostname ds
             | None => PIndexError
             end
      else any_bypassed hostname ds
    end
  end.

Definition bypass_flags_set : bool :=
  PROXY_BYPASS_PRIVATE || match PROXY_BYPASS_DOMAINS with [] => false | _ => true end.

(** [proxy_filter] after [hostname] has been computed. [ip_address(None)]
    raises [ValueError], which is passed. *)
Definition proxy_filter_rest (hostname : option string) : proxy_result :=
  let is_private :=
    if PROXY_BYPASS_PRIVATE then
      match hostname with
      | Some h => match ip_is_private h with Some true => true | _ => false end
      | None => false
      end
    else false in
  if is_private then PRet false
  else if match PROXY_BYPASS_DOMAINS with [] => false | _ => true end then
    match any_bypassed hostname PROXY_BYPASS_DOMAINS with
    | PRet true => PRet false
    | PRet false => PRet true
    | r => r
    end
  else PRet true.

(** [proxy_filter(url, parse)] for a [str] [url]. *)
Definition proxy_filter (url : string) (parse : bool) : proxy_result :=
  if negb bypass_flags_set then PRet true
  else if parse then
    match UrlLib.urlparse (list_ascii_of_string url) with
    | Raise e => PRaise e
    | Ok sr => proxy_filter_rest (option_map string_of_list_ascii (UrlLib.hostname sr))
    end
  else proxy_filter_rest (Some url).

(** [proxy_filter(host, parse=False)] as [_get] calls it, [host] being
    [urlparse(url).hostname], [None] for a URL without a host. *)
Definition proxy_filter_host (host : option string) : proxy_result :=
  if negb bypass_flags_set then PRet true else proxy_filter_rest host.

End ProxyFilterSec.

End ProxyFilter.

(** *** The response [_get] returns, and [get_medium_info] *)
Module FetchResponse.

(** The body as the callback's read gives it: [response.text()] and
    [response.read()] the whole body, [response.content.read(n)] at most
    [n] bytes (all of it for [n = -1] and other negative [n]). *)
Definition read_body (b : body_read) (body : string) : string :=
  match b with
  | ReadText | ReadAll => body
  | ReadUpTo n => if n <? 0 then body else substring 0 (Z.to_nat n) body
  end.

(** The [WebResponse] of the last pass of [_get], answered with [status],
    [hdrs], [reason] and [body]: [content = await resp_callback(response)]
    only for status 200 (an exception of the callback propagates),
    [None] otherwise. *)
Definition final_response (resp_callback : headers -> py_result (option body_read))
    (url : string) (status : Z) (hdrs : headers) (reason : option string) (body : string)
    : py_result WebResponse :=
  if status =? 200 then
    match resp_callback hdrs with
    | Ok c => Ok (mkWebResponse url (option_map (fun b => read_body b body) c) hdrs status reason)
    | Raise e => Raise e
    end
  else Ok (mkWebResponse url None hdrs status reason).

(** The callback [feed_get] passes through [get]:
    [partial(__norm_callback, decode=False, max_size=None,
    intended_content_type=None)]. *)
Definition feed_callback (hdrs : headers) : py_result (option body_read) :=
  __norm_callback hdrs false None None.

(** [get_medium_info(url)] (the [lru_cache] is not modelled). [fetch] is the
    status and headers of the last pass of [_get] (or what it raised); for
    status 200, [_get] runs [__medium_info_callback] on the body [chunks]
    and an exception of the callback propagates out of [_get]. Returns
    [(size, width, height, content_type)]. *)
Definition get_medium_info (pil_open : bytes -> decode_result) (url : string)
    (fetch : py_result (Z * headers)) (chunks : list bytes)
    : py_result (option (Z * Z * Z * option string)) :=
  if startswith url "data:" then Ok None else
  let r :=
    match fetch with
    | Raise e => Raise e
    | Ok (status, hdrs) =>
      if status =? 200 then
        match __medium_info_callback pil_open hdrs chunks with
        | Ok wh => Ok (status, hdrs, Some wh)
        | Raise e => Raise e
        end
      else Ok (status, hdrs, None)
    end in
  match r with
  | Raise e => if catches [Exception_] e then Ok None else Raise e
  | Ok (status, hdrs, content) =>
    if negb (status =? 200) then Ok None  (* ValueError, caught *)
    else
      (* int(r.headers.get('Content-Length') or -1), outside the try *)
      let size := match header_get hdrs "Content-Length" with
                  | Some v => if String.eqb v EmptyString then Some (-1) else py_int v
                  | None => Some (-1)
                  end in
      match size with
      | None => Raise ValueError
      | Some size =>
        let content_type := header_get hdrs "Content-Type" in
        let '(width, height) := match content with
                                | Some wh => wh
                                | None => (-1, -1)
                                end in
        Ok (Some (size, width, height, content_type))
      end
  end.

End FetchResponse.

(** *** The log record of [WebError.__init__] *)
Module WebErrorLog.

Section WebErrorLogSec.

(** [type(e).__name__]. *)
Variable exc_name : pyexc -> string.

(** The record [logger.log] receives from [WebError.__init__]: the message
    and [exc_info]. [status] is the [str] or [None] that [feed_get] passes. *)
Definition web_error_log (error_name : string) (status : option string) (url : option string)
    (base_error : option pyexc) (hide_base_error : bool) (log_level : Z)
    : string * option pyexc :=
  let log_msg := ("Fetch failed (" ++ error_name)%string in
  let log_msg := (log_msg ++
    match base_error with
    | Some e => if negb hide_base_error && (log_level <? ERROR)%Z then ", " ++ exc_name e else ""
    | None => ""
    end)%string in
  let log_msg := (log_msg ++
    match status with
    | Some s => if truthy status then ", " ++ s else ""
    | None => ""
    end)%string in
  let log_msg := (log_msg ++ ")")%string in
  let log_msg := (log_msg ++
    match url with
    | Some u => if truthy url then ": " ++ u else ""
    | None => ""
    end)%string in
  let exc_info :=
    match base_error with
    | Some e => if negb hide_base_error && (ERROR <=? log_level)%Z then Some e else None
    | None => None
    end in
  (log_msg, exc_info).

(** The [WebError] objects [feed_get] builds all pass [url=url] and leave
    [hide_base_error] at [False]. *)
Definition feed_error_log (url : string) (we : WebError) : string * option pyexc :=
  web_error_log we.(error_name) we.(error_status) (Some url) we.(base_error) false we.(log_level).

End WebErrorLogSec.

End WebErrorLog.

(** ** More of src/parsing/tgraph.py *)

(** *** [APIs.get_account] *)
Module Accounts.

(** [APIs.get_account()] with [self._accounts = accounts] and
    [self._curr_id = curr_id]: the account and the new [_curr_id]. *)
Definition get_account {A : Type} (accounts : list A) (curr_id : Z) : py_result (A * Z) :=
  match accounts with
  | [] => Raise TelegraphError
  | a0 :: _ =>
    let n := Z.of_nat (List.length accounts) in
    let curr_id := if (0 <=? curr_id) && (curr_id <? n) then curr_id else 0 in
    let next := if (0 <=? curr_id + 1) && (curr_id + 1 <? n) then curr_id + 1 else 0 in
    Ok (nth (Z.to_nat curr_id) accounts a0, next)
  end.

(** [k] successive calls of [get_account()]. *)
Fixpoint get_account_n {A : Type} (accounts : list A) (curr_id : Z) (k : nat)
    : py_result (list A * Z) :=
  match k with
  | O => Ok ([], curr_id)
  | S k' =>
    match get_account accounts curr_id with
    | Raise e => Raise e
    | Ok (a, c) =>
      match get_account_n accounts c k' with
      | Raise e => Raise e
      | Ok (l, c') => Ok (a :: l, c')
      end
    end
  end.

End Accounts.

(** *** [APIs.init] *)
Module ApisInit.

(** What the Telegraph server and the session do for one token of
    [APIs.init]: [replace_session()], the [create_account(...)] made when
    the token is not 60 characters long, [get_account_info()], and the
    [create_account(...)] of the [TelegraphError] handler. *)
Record token_calls := mkTokenCalls {
  replace_session : py_result unit;
  create_account_1 : py_result unit;
  get_account_info : py_result unit;
  create_account_2 : py_result unit }.

(** The [try] body for one (stripped) token, and its handlers: [Ok true]
    appends the account, [Ok false] skips it (the exception is logged),
    [Raise e] lets [e] out of [init]. *)
Definition init_one (token : list ascii) (c : token_calls) : py_result bool :=
  let body :=
    match (if negb (Nat.eqb (List.length token) 60) then create_account_1 c else Ok tt) with
    | Ok _ => get_account_info c
    | Raise e => Raise e
    end in
  match body with
  | Ok _ => Ok true
  | Raise e =>
    if catches [TelegraphError] e then
      match create_account_2 c with
      | Ok _ => Ok true
      | Raise e2 => if catches [Exception_] e2 then Ok false else Raise e2
      end
    else if catches [Exception_] e then Ok false
    else Raise e
  end.

(** [APIs.init()]: the accounts appended to [self._accounts] (each as its
    stripped token), and the exception that ends the loop, if any;
    [replace_session()] is awaited outside the [try]. *)
Fixpoint apis_init (tokens : list (string * token_calls)) : list (list ascii) * option pyexc :=
  match tokens with
  | [] => ([], None)
  | (t, c) :: rest =>
    let token := strip (list_ascii_of_string t) in
    match replace_session c with
    | Raise e => ([], Some e)
    | Ok _ =>
      match init_one token c with
      | Raise e => ([], Some e)
      | Ok keep =>
        let '(accs, esc) := apis_init rest in
        ((if keep then [token] else []) ++ accs, esc)
      end
    end
  end.

(** The accounts kept from tokens that all went through. *)
Definition kept (tokens : list (string * token_calls)) : list (list ascii) :=
  flat_map (fun '(t, c) =>
    let token := strip (list_ascii_of_string t) in
    if match init_one token c with Ok true => true | _ => false end then [token] else [])
    tokens.

End ApisInit.

(** *** The page fields of [TelegraphIfy] *)
Module PageArgs.

(** A [str] as its code points ([len] counts them). *)
Definition ustr := list Z.

Definition ustr_of (s : string) : ustr :=
  map (fun c => Z.of_nat (nat_of_ascii c)) (list_ascii_of_string s).

Definition utruthy (s : option ustr) : bool :=
  match s with Some (_ :: _) => true | _ => false end.

Fixpoint uprefix (p s : ustr) : bool :=
  match p, s with
  | [], _ => true
  | a :: p', b :: s' => (a =? b) && uprefix p' s'
  | _ :: _, [] => false
  end.

(** [sub in s]. *)
Fixpoint ucontains (s sub : ustr) : bool :=
  uprefix sub s || match s with [] => false | _ :: s' => ucontains s' sub end.

Definition GENERATED_BY : ustr := ustr_of "Generated by RSStT".
Definition REPO_URL : ustr := ustr_of "https://github.com/Rongronggg9/RSS-to-Telegram-Bot".

(** [telegraph_author] and [telegraph_author_url] as set at the end of
    [generate_page]. *)
Definition telegraph_author_fields (feed_title author link : option ustr) : ustr * ustr :=
  match feed_title with
  | Some ft =>
    if utruthy feed_title then
      let a := match author with
               | Some au => if utruthy author && negb (ucontains ft au)
                            then ft ++ ustr_of " (" ++ au ++ ustr_of ")"
                            else ft
               | None => ft
               end in
      (a, match link with Some l => l | None => [] end)
    else (GENERATED_BY, REPO_URL)
  | None => (GENERATED_BY, REPO_URL)
  end.

(** [self.telegraph_title = self.title or 'Generated by RSStT'] *)
Definition telegraph_title (title : option ustr) : ustr :=
  match title with
  | Some t => if utruthy title then t else GENERATED_BY
  | None => GENERATED_BY
  end.

(** The horizontal ellipsis U+2026. *)
Definition ELLIPSIS : Z := 8230.

(** The [title], [author_name] and [author_url] arguments [telegraph_ify]
    passes to [create_page]. *)
Definition create_page_args (telegraph_title telegraph_author telegraph_author_url : ustr)
    : ustr * ustr * ustr :=
  ((if Nat.ltb 61 (List.length telegraph_title)
    then firstn 60 telegraph_title ++ [ELLIPSIS] else telegraph_title),
   firstn 128 telegraph_author,
   firstn 512 telegraph_author_url).

End PageArgs.

(** ** More of src/helpers/queue/_helper.py *)
Module QueueLifecycle.
Import QueuedHelper.

(** [init_sync(loop)]: a consumer that is running (not done) is kept;
    otherwise a new queue from [_queue_constructor] (same [maxsize]) and a
    new consumer task replace the old ones. *)
Definition init_sync (s : QH) : QH :=
  match s.(consumer_task) with
  | Some t => if negb (done t) then s
              else mkQH [] s.(maxsize) (Some Running) s.(spawned)
  | None => mkQH [] s.(maxsize) (Some Running) s.(spawned)
  end.

(** How [queued_nowait(args)] ends: the new state, [asyncio.QueueFull] from
    [put_nowait], or the [AttributeError] of [None.put_nowait] before
    [init_sync] (the model has no queue exactly when it has no consumer
    task). *)
Inductive put_result := PutOk (s : QH) | PutQueueFull | PutNoQueue.

Definition queued_nowait (s : QH) (a : nat) : put_result :=
  match s.(consumer_task) with
  | None => PutNoQueue
  | Some _ => if full s then PutQueueFull else PutOk (set_queue s (s.(queue) ++ [Work a]))
  end.

Section Lifecycle.

Variable call_raises : nat -> bool.

Definition task_done (s : QH) : bool :=
  match s.(consumer_task) with Some t => done t | None => true end.

(** [await self._consumer_task] while the other tasks of the event loop run:
    [evs] are the producers' [queued_nowait] calls and the consumer's
    resumptions, in the order the loop runs them. The await ends as soon as
    the consumer task is done, with the state then and the events left;
    [None] while it is still pending after [evs]. *)
Fixpoint await_consumer (s : QH) (evs : list event) : option (QH * list event) :=
  if task_done s then Some (s, evs) else
  match evs with
  | [] => None
  | ev :: evs' => await_consumer (step call_raises s ev) evs'
  end.

(** [close()] with the events [evs] the loop runs while it awaits:
    [close_sync()], then, if it returned [True], awaiting the consumer task;
    awaiting a cancelled task raises [CancelledError], which
    [except Exception] does not catch. [None]: [close] has not returned
    after [evs]. *)
Definition close (s : QH) (evs : list event) : option (py_result QH) :=
  let (s1, canceled) := close_sync s in
  if canceled then
    match await_consumer s1 evs with
    | None => None
    | Some (s2, _) =>
      match s2.(consumer_task) with
      | Some DoneCancelled =>
        if catches [Exception_] CancelledError then Some (Ok s2) else Some (Raise CancelledError)
      | _ => Some (Ok s2)
      end
    end
  else Some (Ok s1).

End Lifecycle.

End QueueLifecycle.

(** ** Notions used in the statements and proofs *)

(** The big-endian 16-bit integer at bytes [[i, i+2)]. *)
Definition be16 (b : bytes) (i : Z) : Z :=
  256 * nth (Z.to_nat i) b 0 + nth (Z.to_nat (i + 1)) b 0.

(** States reachable after the sentinel was pushed onto an empty queue. *)
Definition after_sentinel (sp : list nat) (s : QueuedHelper.QH) : Prop :=
  QueuedHelper.spawned s = sp /\
  ((QueuedHelper.consumer_task s = Some QueuedHelper.Running /\ exists q, QueuedHelper.queue s = QueuedHelper.Sentinel :: q) \/
   QueuedHelper.consumer_task s = Some QueuedHelper.DoneOk).

(** States reachable after the consumer was cancelled with [q0] queued. *)
Definition after_cancel (sp : list nat) (q0 : list QueuedHelper.entry) (s : QueuedHelper.QH) : Prop :=
  QueuedHelper.spawned s = sp /\
  (QueuedHelper.consumer_task s = Some QueuedHelper.CancelRequested \/ QueuedHelper.consumer_task s = Some QueuedHelper.DoneCancelled) /\
  exists q, QueuedHelper.queue s = q0 ++ q.

(** The arguments of the work entries of a queue, in order. *)
Definition works (q : list QueuedHelper.entry) : list nat :=
  flat_map (fun e => match e with QueuedHelper.Work a => [a] | QueuedHelper.Sentinel => [] end) q.

(** The arguments the producers of an event sequence pass. *)
Definition produced (evs : list QueuedHelper.event) : list nat :=
  flat_map (fun ev => match ev with QueuedHelper.Produce a => [a] | QueuedHelper.ConsumerRuns => [] end) evs.

(** The number of bytes in a list of chunks. *)
Definition total_len (cs : list bytes) : Z :=
  fold_right (fun c acc => Z.of_nat (List.length c) + acc) 0 cs.

(** The index [get_account] starts from: [_curr_id] if it is in range,
    otherwise 0. *)
Definition curr_index (n curr_id : Z) : Z :=
  if (0 <=? curr_id) && (curr_id <? n) then curr_id else 0.

(** The status caption of a ['status code error']. *)
Definition status_caption (status : Z) (reason : option string) : string :=
  (z_to_string status ++
   match reason with
   | Some r => if String.eqb r EmptyString then EmptyString else " " ++ r
   | None => EmptyString
   end)%string.

(** The test [hostname.endswith(domain) and (hostname == domain or
    hostname[-len(domain) - 1] == '.')] read as a property of the two
    strings: equal, or [hostname] ends with a dot and [domain]. *)
Definition domain_bypassed (h d : string) : bool :=
  String.eqb h d || ProxyFilter.endswith h (String "."%char d).

(** Concrete inputs. [_get]: a first IPv6 attempt answered 403, then IPv4 answered 200. *)
Definition attempts_403_then_200 (k : nat) (f : family) : attempt :=
  match f with AF_INET6 => AttResp 403 | _ => AttResp 200 end.

(** A 200 response with [Content-Length: 0]. *)
Definition resp_200_empty : WebResponse :=
  mkWebResponse "https://example.com/feed" (Some EmptyString)
                [("content-length", "0")]%string 200 (Some "OK"%string).

(** [urlparse('http://example.com/a/b.pdf')]. *)
Definition parsed_b_pdf : UrlLib.SplitResult :=
  Eval cbv in
  match UrlLib.urlparse (list_ascii_of_string "http://example.com/a/b.pdf") with
  | Ok sr => sr
  | Raise _ => UrlLib.mkSplit [] [] [] [] []
  end.

(** A 404 response without body or headers. *)
Definition resp_404 : WebResponse :=
  mkWebResponse "http://example.com/a/b.pdf" None [] 404 None.

(** A 404 response of that URL with the header [Content-Disposition: attachment]. *)
Definition resp_404_attachment : WebResponse :=
  mkWebResponse "http://example.com/a/b.pdf" None [("Content-Disposition"%string, "attachment"%string)] 404 None.

(** A nine-byte JPEG fragment with an [FFC0] marker at 0, height 10 and
    width 20. *)
Definition sof0_fragment : bytes := [255; 192; 0; 0; 0; 0; 10; 0; 20].

(** A dispatcher with a running consumer and an empty unbounded queue. *)
Definition idle_helper : QueuedHelper.QH := QueuedHelper.mkQH [] 0 (Some QueuedHelper.Running) [].

(** The same with two entries queued. *)
Definition busy_helper : QueuedHelper.QH :=
  QueuedHelper.mkQH [QueuedHelper.Work 1; QueuedHelper.Work 2] 0 (Some QueuedHelper.Running) [].

(** A dispatcher whose consumer task has finished, having started item 4. *)
Definition stopped_helper : QueuedHelper.QH :=
  QueuedHelper.mkQH [] 0 (Some QueuedHelper.DoneOk) [4%nat].

(** [create_page] answering flood control once, then with a page. *)
Definition flood_then_page (k : nat) : Tgraph.create_outcome :=
  match k with
  | O => Tgraph.FloodWait 3
  | S _ => Tgraph.PageCreated "https://telegra.ph/p"
  end.

(** Headers of a small HTML page. *)
Definition html_headers : headers :=
  [("Content-Type", "text/html"); ("Content-Length", "100")]%string.

(** What [feed_get] returns when [get] raises [ClientError] for
    [https://example.com/feed], [verbose] being set. *)
Definition feed_client_error : WebFeed unit :=
  mkWebFeed unit "https://example.com/feed" None (-1) None None
            (Some (mkWebError "network error" None (Some ClientError) WARNING)).

(** * Properties *)

Import Tgraph QueuedHelper.

(** C3. Every [_get] call makes at most two connection attempts (the
    assertion [tries <= 2] never fails), and it makes a second one, forcing
    IPv4, exactly when the first used IPv6 and either raised a retryable
    exception or returned 400, 403, 429 or 451. *)
Theorem get_attempts_at_most_two :
  forall (attempt_at : nat -> family -> attempt) (fuel : nat) (v6_address : bool),
  (3 <= fuel)%nat ->
  let (r, fams) := _get attempt_at fuel v6_address in
  r <> GetAssertFail /\ r <> GetNoFuel /\ (List.length fams <= 2)%nat /\
  (List.length fams = 2%nat <->
     v6_address = true /\
     ((exists e, attempt_at 1%nat AF_INET6 = AttRaise e
                 /\ catches EXCEPTIONS_SHOULD_RETRY e = true) \/
      (exists st, attempt_at 1%nat AF_INET6 = AttResp st
                  /\ In st [400; 403; 429; 451]))) /\
  (List.length fams = 2%nat -> fams = [AF_INET6; AF_INET]).
Proof.
  intros attempt_at fuel v6_address Hf.
  destruct fuel as [|[|[|fuel]]]; try lia. clear Hf.
  assert (Hb : forall st, blocked_status st = true <-> In st [400; 403; 429; 451]).
  { intros st; unfold blocked_status; simpl.
    rewrite !orb_true_iff, !Z.eqb_eq. intuition. }
  unfold _get; destruct v6_address; cbn -[catches blocked_status].
  - destruct (attempt_at 1%nat AF_INET6) as [st|e] eqn:E1.
    + destruct (Z.eqb_spec st 200) as [->|Hne].
      * repeat split; cbn [List.length] in *; try discriminate; try lia.
        intros [_ [[e [He _]]|[st' [Hs Hin]]]]; [discriminate|].
        injection Hs as <-. simpl in Hin; lia.
      * destruct (blocked_status st) eqn:Eb; cbn -[catches].
        -- destruct (attempt_at 2%nat AF_INET) as [st2|e2];
           [destruct (st2 =? 200)|destruct (catches EXCEPTIONS_SHOULD_RETRY e2)];
           cbn -[catches];
           (repeat split; cbn [List.length] in *; try discriminate; try reflexivity);
           (right; exists st; split; [reflexivity | apply Hb; exact Eb]).
        -- repeat split; cbn [List.length] in *; try discriminate; try (intros; discriminate); try lia.
           intros [_ [[e [He _]]|[st' [Hs Hin]]]]; [discriminate|].
           injection Hs as <-. apply Hb in Hin. congruence.
    + destruct (catches EXCEPTIONS_SHOULD_RETRY e) eqn:Ec; cbn -[catches].
      * destruct (attempt_at 2%nat AF_INET) as [st2|e2];
        [destruct (st2 =? 200)|destruct (catches EXCEPTIONS_SHOULD_RETRY e2)];
        cbn -[catches];
        (repeat split; cbn [List.length] in *; try discriminate; try reflexivity);
        (left; exists e; split; reflexivity || assumption).
      * repeat split; cbn [List.length] in *; try discriminate; try (intros; discriminate); try lia.
        intros [_ [[e' [He Hc]]|[st' [Hs _]]]]; [|discriminate].
        injection He as <-. congruence.
  - destruct (attempt_at 1%nat AF_UNSPEC) as [st|e].
    + destruct (st =? 200); cbn -[catches];
      repeat split; cbn [List.length] in *; try discriminate; try (intros; discriminate); try lia;
      intros [H _]; discriminate.
    + destruct (catches EXCEPTIONS_SHOULD_RETRY e); cbn -[catches];
      repeat split; cbn [List.length] in *; try discriminate; try (intros; discriminate); try lia;
      intros [H _]; discriminate.
Qed.

(** C4. A 304 response, or a 200 response whose [Content-Length] header
    parses to 0, makes [feed_get] return a [WebFeed] with no error and no
    parsed feed. *)
Theorem feed_get_not_modified :
  forall (FPD : Type) (parse : string -> py_result FPD) (has_title : FPD -> bool)
         (url : string) (verbose : bool) (resp : WebResponse),
  resp_status resp = 304 \/
  (resp_status resp = 200 /\
   exists v, header_get (resp_headers resp) "Content-Length" = Some v /\ py_int v = Some 0) ->
  exists r, feed_get FPD parse has_title url verbose (Ok resp) = Ok r /\
            error FPD r = None /\ rss_d FPD r = None.
Proof.
  intros FPD parse has_title url verbose resp Hst.
  unfold feed_get, feed_get_try.
  destruct Hst as [H304 | [H200 [v [Hv Hint]]]].
  - rewrite H304; cbn.
    eexists; split; [reflexivity | split; reflexivity].
  - rewrite H200, Hv, Hint; cbn.
    eexists; split; [reflexivity | split; reflexivity].
Qed.

(** C6 (counterexample). [asyncio.CancelledError] escaping [get] (the task
    running [feed_get] is cancelled) is not caught: [feed_get] raises it. *)
Lemma feed_get_cancelled_raises :
  feed_get unit (fun _ => Ok tt) (fun _ => true) "https://example.com/feed" true
           (Raise CancelledError) = Raise CancelledError.
Proof. reflexivity. Qed.

(** C6 (amended). [feed_get] raises only exceptions that do not derive from
    [Exception], and only ones raised inside its [try] block. Every
    [Exception] escaping the [try] block is captured into [error]:
    [aiohttp.InvalidURL] as ['URL invalid'], [asyncio.TimeoutError],
    [ClientError], [SSLError], [OSError], [ConnectionError] and
    [TimeoutError] as ['network error'] with the exception attached, and any
    other as ['internal error'] at [ERROR] level with the exception attached. *)
Theorem feed_get_captures_exceptions :
  forall (FPD : Type) (parse : string -> py_result FPD) (has_title : FPD -> bool)
         (url : string) (verbose : bool) (get_outcome : py_result WebResponse),
  let lvl := if verbose then WARNING else DEBUG in
  (forall e, feed_get FPD parse has_title url verbose get_outcome = Raise e ->
     issubclass e Exception_ = false /\
     exists r, feed_get_try FPD parse has_title url lvl get_outcome = TryRaise FPD r e) /\
  (forall r e, feed_get_try FPD parse has_title url lvl get_outcome = TryRaise FPD r e ->
     issubclass e Exception_ = true ->
     exists r' err, feed_get FPD parse has_title url verbose get_outcome = Ok r' /\
       error FPD r' = Some err /\
       (issubclass e InvalidURL = true -> error_name err = "URL invalid"%string) /\
       (issubclass e InvalidURL = false ->
        catches [AsyncioTimeoutError; ClientError; SSLError; OSError;
                 ConnectionError; TimeoutError] e = true ->
        error_name err = "network error"%string /\ base_error err = Some e) /\
       (catches [InvalidURL; AsyncioTimeoutError; ClientError; SSLError; OSError;
                 ConnectionError; TimeoutError] e = false ->
        error_name err = "internal error"%string /\ base_error err = Some e /\
        log_level err = ERROR)).
Proof.
  intros FPD parse has_title url verbose get_outcome lvl.
  unfold feed_get; fold lvl.
  destruct (feed_get_try FPD parse has_title url lvl get_outcome) as [r | r e] eqn:Et.
  - split.
    + intros e H; discriminate.
    + intros r' e H; discriminate.
  - split.
    + intros e' H.
      destruct (catches [InvalidURL] e); [discriminate|].
      destruct (catches _ e); [discriminate|].
      destruct (catches [Exception_] e) eqn:Ee; [discriminate|].
      injection H as <-. split; [|eauto].
      unfold catches in Ee; cbn in Ee. now rewrite orb_false_r in Ee.
    + intros r' e' H He. injection H as <- <-.
      assert (Hc1 : forall d, catches [d] e = issubclass e d)
        by (intros d; unfold catches; cbn [existsb]; apply orb_false_r).
      assert (Hcons : forall d ds, catches (d :: ds) e = issubclass e d || catches ds e)
        by reflexivity.
      rewrite !Hc1, He, (Hcons InvalidURL).
      destruct (issubclass e InvalidURL) eqn:Ei;
        [| destruct (catches [AsyncioTimeoutError; ClientError; SSLError; OSError;
                              ConnectionError; TimeoutError] e) eqn:En];
        do 2 eexists; (split; [reflexivity|]); (split; [reflexivity|]);
        cbn -[issubclass catches]; rewrite ?Ei, ?En;
        repeat split; intros; try discriminate; try reflexivity.
Qed.

(** C10 (counterexample). With no [Content-Type] header the gate passes, but
    with [max_size = 0] ("ignore response body") nothing is read: the
    callback returns [None]. *)
Lemma norm_callback_no_content_type_max_size_zero :
  __norm_callback [] false (Some 0) (Some "text/html"%string) = Ok None.
Proof. reflexivity. Qed.

(** C10 (amended). For a non-empty [intended_content_type], the gate passes
    exactly when the [Content-Type] header is absent, empty, or starts with
    the expected prefix. The callback returns [None] exactly when the gate
    fails, or when it passes with [decode] false and [max_size <= 0]. When
    it passes, [decode] reads the text, [max_size = None] reads the whole
    body, and [max_size > 0] reads at most [min(Content-Length, max_size)]
    bytes ([max_size] if there is no [Content-Length] header). *)
Theorem norm_callback_content_type_gate :
  forall (hdrs : headers) (decode : bool) (max_size : option Z) (ict : string),
  ict <> EmptyString ->
  let gate_passes :=
    match header_get hdrs "Content-Type" with
    | None => true
    | Some ct => String.eqb ct EmptyString || startswith ct ict
    end in
  (__norm_callback hdrs decode max_size (Some ict) = Ok None <->
   gate_passes = false \/
   (decode = false /\ exists m, max_size = Some m /\ m <= 0)) /\
  (gate_passes = true -> decode = true ->
   __norm_callback hdrs decode max_size (Some ict) = Ok (Some ReadText)) /\
  (gate_passes = true -> decode = false -> max_size = None ->
   __norm_callback hdrs decode max_size (Some ict) = Ok (Some ReadAll)) /\
  (forall m, gate_passes = true -> decode = false -> max_size = Some m -> 0 < m ->
   header_get hdrs "Content-Length" = None ->
   __norm_callback hdrs decode max_size (Some ict) = Ok (Some (ReadUpTo m))) /\
  (forall m v cl, gate_passes = true -> decode = false -> max_size = Some m -> 0 < m ->
   header_get hdrs "Content-Length" = Some v -> py_int v = Some cl ->
   __norm_callback hdrs decode max_size (Some ict) = Ok (Some (ReadUpTo (Z.min cl m)))).
Proof.
  intros hdrs decode max_size ict Hict gate_passes.
  assert (Hgate : negb (truthy (Some ict)) || negb (truthy (header_get hdrs "Content-Type"))
                  || match header_get hdrs "Content-Type" with
                     | Some ct => startswith ct ict
                     | None => false
                     end = gate_passes).
  { unfold gate_passes, truthy.
    assert (Hi : String.eqb ict EmptyString = false) by (apply String.eqb_neq; exact Hict).
    rewrite Hi. destruct (header_get hdrs "Content-Type") as [ct|]; cbn; [|reflexivity].
    destruct (String.eqb ct EmptyString); reflexivity. }
  unfold __norm_callback. rewrite Hgate.
  destruct gate_passes.
  - repeat split.
    + intros H. right.
      destruct decode; [discriminate|]. split; [reflexivity|].
      destruct max_size as [m|]; [|discriminate].
      exists m; split; [reflexivity|].
      destruct (0 <? m) eqn:Hm; [|apply Z.ltb_ge; exact Hm].
      destruct (match header_get hdrs "Content-Length" with
                | Some v => py_int v | None => Some m end); discriminate.
    + intros [H | [-> [m [-> Hm]]]]; [discriminate|].
      destruct (Z.ltb_spec 0 m); [lia | reflexivity].
    + intros _ ->; reflexivity.
    + intros _ -> ->; reflexivity.
    + intros m _ -> -> Hm Hcl. rewrite Hcl, Z.min_id.
      destruct (Z.ltb_spec 0 m); [reflexivity | lia].
    + intros m v cl _ -> -> Hm Hcl Hv. rewrite Hcl, Hv.
      destruct (Z.ltb_spec 0 m); [reflexivity | lia].
  - repeat split; intros; try discriminate; auto.
Qed.

(** C8. For a positive [timeout], [get] returns what [_get] returns if [_get]
    finishes within [(timeout * 2 + 5) * (2 if IPV6_PRIOR else 1)] seconds,
    and raises [asyncio.TimeoutError] otherwise, whatever [_get] was doing. *)
Theorem get_outer_deadline :
  forall (run__get : Q -> Q * py_result WebResponse) (timeout : Q) (IPV6_PRIOR : bool),
  (0 < timeout)%Q ->
  get run__get (Some timeout) IPV6_PRIOR =
  let (elapsed, outcome) := run__get timeout in
  if Qle_bool elapsed ((timeout * 2 + 5) * (if IPV6_PRIOR then 2 else 1))%Q
  then outcome else Raise AsyncioTimeoutError.
Proof.
  intros run__get timeout IPV6_PRIOR Hpos.
  assert (Ht : effective_timeout (Some timeout) = timeout).
  { unfold effective_timeout.
    destruct (Qeq_bool timeout 0) eqn:E; [|reflexivity].
    apply Qeq_bool_eq in E. rewrite E in Hpos. discriminate. }
  unfold get, wait_for_timeout. rewrite Ht. reflexivity.
Qed.

Lemma find_from_range :
  forall hay sub i, find_from i hay sub = -1 \/ i <= find_from i hay sub.
Proof.
  induction hay as [|x hay IH]; intros sub i; cbn.
  - destruct (bytes_prefix sub []); [right; lia | left; reflexivity].
  - destruct (bytes_prefix sub (x :: hay)); [right; lia|].
    destruct (IH sub (i + 1)) as [H|H]; [left; exact H | right; lia].
Qed.

Lemma first_marker_range :
  forall fh ms, first_marker fh ms = -1 \/ 0 <= first_marker fh ms.
Proof.
  intros fh ms; induction ms as [|m ms IH]; cbn; [left; reflexivity|].
  destruct (find fh m =? -1) eqn:E; cbn; [exact IH|].
  unfold find. destruct (find_from_range fh m 0) as [H|H]; [|right; exact H].
  unfold find in E. rewrite H in E. discriminate.
Qed.

Lemma slice_two :
  forall (b : bytes) (i : Z), 0 <= i -> i + 2 <= Z.of_nat (List.length b) ->
  slice b i (i + 2) = [nth (Z.to_nat i) b 0; nth (Z.to_nat (i + 1)) b 0].
Proof.
  intros b i Hi Hlen. unfold slice.
  replace (i + 2 - i) with 2 by lia.
  replace (Z.to_nat (i + 1)) with (S (Z.to_nat i)) by lia.
  assert (Hn : (Z.to_nat i + 2 <= List.length b)%nat) by lia.
  clear Hi Hlen. revert b Hn. generalize (Z.to_nat i) as n.
  induction n as [|n IH]; intros b Hn.
  - destruct b as [|x [|y b]]; cbn in *; try lia. reflexivity.
  - destruct b as [|x b]; cbn in *; [lia|]. apply IH. lia.
Qed.

Lemma int_hex_two : forall x y, int_hex (hex [x; y]) = Some (256 * x + y).
Proof.
  intros x y. unfold int_hex, hex. cbn [flat_map app fold_left]. f_equal.
  pose proof (Z.div_mod x 16 ltac:(lia)). pose proof (Z.div_mod y 16 ltac:(lia)).
  lia.
Qed.


(** C5. On a JPEG-typed stream, when decoding the buffered bytes raises an
    exception other than [UnidentifiedImageError], and the first of the
    markers [FFC2], [FFC1], [FFC0] found in the buffer is at [p] with
    [p + 9 <= len(buffer)], the loop returns width = the big-endian 16-bit
    integer at [[p+7, p+9)] and height = the one at [[p+5, p+7)], having read
    no chunk after the current one. *)
Theorem medium_info_jpeg_marker :
  forall (pil_open : bytes -> decode_result) (max_read_length already_read : Z)
         (buffer chunk : bytes) (rest : list bytes) (e : pyexc) (p : Z),
  let file_header := buffer ++ chunk in
  pil_open file_header = DecOther e ->
  (find file_header [255; 194] = p /\ p <> -1) \/
  (find file_header [255; 194] = -1 /\ find file_header [255; 193] = p /\ p <> -1) \/
  (find file_header [255; 194] = -1 /\ find file_header [255; 193] = -1 /\
   find file_header [255; 192] = p /\ p <> -1) ->
  p + 9 <= Z.of_nat (List.length file_header) ->
  medium_info_loop pil_open true max_read_length already_read buffer (chunk :: rest) =
  ((be16 file_header (p + 7), be16 file_header (p + 5)), 1%nat).
Proof.
  intros pil_open max_read_length already_read buffer chunk rest e p fh Hdec Hp Hlen.
  assert (Hfm : first_marker fh jpeg_markers = p).
  { unfold first_marker, jpeg_markers.
    destruct Hp as [[H1 Hn] | [[H1 [H2 Hn]] | [H1 [H2 [H3 Hn]]]]];
      rewrite ?H1, ?H2, ?H3; cbn;
      (destruct (p =? -1) eqn:E; [apply Z.eqb_eq in E; contradiction | reflexivity]). }
  assert (Hp0 : 0 <= p).
  { destruct (first_marker_range fh jpeg_markers) as [H|H]; rewrite Hfm in H; [|exact H].
    destruct Hp as [[_ Hn] | [[_ [_ Hn]] | [_ [_ [_ Hn]]]]]; contradiction. }
  cbn [medium_info_loop]. fold fh. rewrite Hdec.
  unfold jpeg_sof_size. rewrite Hfm.
  destruct (Z.eqb_spec p (-1)) as [E|_]; [lia|].
  destruct (Z.leb_spec (p + 9) (Z.of_nat (List.length fh))) as [_|E]; [|lia].
  assert (E1 : slice fh (p + 7) (p + 9) =
               [nth (Z.to_nat (p + 7)) fh 0; nth (Z.to_nat (p + 7 + 1)) fh 0]).
  { replace (p + 9) with (p + 7 + 2) by lia. apply slice_two; lia. }
  assert (E2 : slice fh (p + 5) (p + 7) =
               [nth (Z.to_nat (p + 5)) fh 0; nth (Z.to_nat (p + 5 + 1)) fh 0]).
  { replace (p + 7) with (p + 5 + 2) by lia. apply slice_two; lia. }
  cbn [negb andb]. rewrite E1, E2, !int_hex_two. reflexivity.
Qed.

(** C9 (code bug). When the [try] block of [get_page_title] fails with an
    [Exception] on a response that has a non-empty [Content-Disposition]
    header, [get_page_title] does not fall back to the filename, the path or
    the hostname: the call of [contentDispositionFilenameParser] in the
    [except] block raises [TypeError], which propagates out of the call,
    whatever [allow_hostname], [allow_path] and [allow_filename] are. *)
Theorem get_page_title_cd_type_error :
  forall (soup_title_text : string -> option string) (url : string)
         (allow_hostname allow_path allow_filename : bool)
         (get_outcome : py_result WebResponse) (r : WebResponse) (e : pyexc) (cd : string),
  page_title_try soup_title_text get_outcome = TitleRaise (Some r) e ->
  issubclass e Exception_ = true ->
  header_get (resp_headers r) "Content-Disposition" = Some cd ->
  cd <> EmptyString ->
  get_page_title soup_title_text url allow_hostname allow_path allow_filename get_outcome
    = Raise TypeError.
Proof.
  intros stt url ah ap af go r e cd Htry He Hcd Hne.
  assert (Hc : catches [Exception_] e = true)
    by (unfold catches; cbn [existsb]; rewrite He; reflexivity).
  unfold get_page_title. rewrite Htry, Hc. cbn [negb]. rewrite Hcd.
  unfold truthy. destruct (String.eqb_spec cd EmptyString) as [->|]; [congruence|].
  reflexivity.
Qed.

(** C1 (counterexample). [flood_wait(59)] on a free account does not hold
    the gate for 60 seconds: [retry_after + 1 = 60] reaches the threshold
    and a new account is created instead. *)
Lemma flood_wait_59_creates_account :
  flood_wait 0 (mkTelegraph 1 Unlocked) 59 = (NewAccount, mkTelegraph 1 HeldCreating).
Proof. reflexivity. Qed.

(** C1 (amended). [flood_wait(N)] at time [now] on an account whose gate is
    free: if [N + 1 < 60] it holds the gate until [now + N + 1], and a
    [create_page] on that account entering the gate at any [t >= now] gets
    past it at [max t (now + N + 1)], never before [now + N + 1]; the gate
    is released afterwards and the token is kept. If [N + 1 >= 60] it sleeps
    not at all and calls [create_account], the gate being held (and the old
    token kept) until that returns: if it succeeds, the account's token is
    replaced by the new one and [flood_wait] returns; if it raises, the
    token is not replaced, the gate is released and [flood_wait] raises the
    same exception. If the gate is already held, [flood_wait] does
    nothing. *)
Theorem flood_wait_gate :
  forall (now : Z) (a : Telegraph) (N : Z),
  (locked now a = true -> flood_wait now a N = (AlreadyBlocking, a)) /\
  (locked now a = false -> N + 1 < 60 ->
   let (act, a') := flood_wait now a N in
   act = SleepFor (N + 1) /\ token a' = token a /\
   (forall t, now <= t ->
    create_page_gate t a' = Some (Z.max t (now + N + 1)) /\ now + N + 1 <= Z.max t (now + N + 1)) /\
   (forall c, flood_wait_end a act c = (Ok tt, mkTelegraph (token a) Unlocked))) /\
  (locked now a = false -> 60 <= N + 1 ->
   let (act, a') := flood_wait now a N in
   act = NewAccount /\ token a' = token a /\ (forall t, create_page_gate t a' = None) /\
   (forall tok, flood_wait_end a act (Ok tok) = (Ok tt, mkTelegraph tok Unlocked)) /\
   (forall e, flood_wait_end a act (Raise e) = (Raise e, mkTelegraph (token a) Unlocked))).
Proof.
  intros now a N. unfold flood_wait.
  repeat split; intros Hl; rewrite Hl; [reflexivity| |].
  - intros HN. destruct (Z.geb_spec (N + 1) 60) as [H|H]; [lia|].
    split; [reflexivity|]. split; [reflexivity|]. split.
    + intros t Ht. split; [|lia]. cbn. f_equal. f_equal. lia.
    + intros c. reflexivity.
  - intros HN. destruct (Z.geb_spec (N + 1) 60) as [H|H]; [|lia].
    repeat split.
Qed.

Lemma telegraph_ify_network_failures :
  forall fw ff e fuel k,
  telegraph_ify (fun _ => NetworkFailure e) fw ff fuel 0 k = (TNoFuel, (k + fuel)%nat).
Proof.
  intros fw ff e fuel; induction fuel as [|fuel IH]; intros k; cbn.
  - f_equal; lia.
  - rewrite IH. f_equal; lia.
Qed.

(** C2. When every [create_page] call fails with [aiohttp.ClientError],
    [telegraph_ify] does not stop after 3 attempts and re-raise: the network
    branch recurses without incrementing [self.retries], so for every bound
    [n] on the recursion the model makes [n] attempts and never raises
    (whatever the [flood_wait] calls would do, none being started). *)
Theorem telegraph_ify_network_retries_unbounded :
  forall fw ff n,
  telegraph_ify (fun _ => NetworkFailure ClientError) fw ff n 0 0 = (TNoFuel, n).
Proof. intros fw ff n. apply telegraph_ify_network_failures. Qed.


Section Closing.

Variable cr : nat -> bool.

Lemma after_sentinel_enqueue :
  forall sp s a, after_sentinel sp s -> after_sentinel sp (enqueue s a).
Proof.
  intros sp s a H. unfold enqueue. destruct (full s); [exact H|].
  destruct H as [Hsp [[Ht [q Hq]] | Ht]]; (split; [exact Hsp|]); cbn.
  - left. split; [exact Ht|]. rewrite Hq. eexists; reflexivity.
  - right. exact Ht.
Qed.

Lemma after_sentinel_consumer_step :
  forall sp s, after_sentinel sp s ->
  after_sentinel sp (consumer_step cr s) /\ consumer_task (consumer_step cr s) = Some DoneOk.
Proof.
  intros sp s [Hsp [[Ht [q Hq]] | Ht]]; unfold consumer_step; rewrite Ht.
  - rewrite Hq. cbn. split; [split; [exact Hsp | right; reflexivity] | reflexivity].
  - split; [split; [exact Hsp | right; exact Ht] | exact Ht].
Qed.

Lemma done_run :
  forall evs s t, done t = true -> consumer_task s = Some t ->
  consumer_task (run cr s evs) = Some t.
Proof.
  induction evs as [|ev evs IH]; intros s t Hd Ht; cbn; [exact Ht|].
  destruct ev as [a|]; apply IH; try exact Hd.
  - unfold enqueue. destruct (full s); exact Ht.
  - unfold consumer_step. rewrite Ht. destruct t; try discriminate; exact Ht.
Qed.

Lemma after_sentinel_run :
  forall evs sp s, after_sentinel sp s ->
  after_sentinel sp (run cr s evs) /\
  (In ConsumerRuns evs -> consumer_task (run cr s evs) = Some DoneOk).
Proof.
  induction evs as [|ev evs IH]; intros sp s H; cbn.
  - split; [exact H | contradiction].
  - destruct ev as [a|].
    + destruct (IH sp (enqueue s a) (after_sentinel_enqueue sp s a H)) as [H1 H2].
      split; [exact H1|]. intros [Hc|Hc]; [discriminate | exact (H2 Hc)].
    + destruct (after_sentinel_consumer_step sp s H) as [Hs Hd].
      destruct (IH sp (consumer_step cr s) Hs) as [H1 _].
      split; [exact H1|]. intros _. apply done_run; [reflexivity | exact Hd].
Qed.


Lemma after_cancel_enqueue :
  forall sp q0 s a, after_cancel sp q0 s -> after_cancel sp q0 (enqueue s a).
Proof.
  intros sp q0 s a H. unfold enqueue. destruct (full s); [exact H|].
  destruct H as [Hsp [Ht [q Hq]]]. split; [exact Hsp|]. split; [exact Ht|].
  cbn. rewrite Hq. exists (q ++ [Work a]). symmetry. apply app_assoc.
Qed.

Lemma after_cancel_consumer_step :
  forall sp q0 s, after_cancel sp q0 s ->
  after_cancel sp q0 (consumer_step cr s) /\
  consumer_task (consumer_step cr s) = Some DoneCancelled.
Proof.
  intros sp q0 s [Hsp [[Ht|Ht] Hq]]; unfold consumer_step; rewrite Ht; cbn.
  - split; [split; [exact Hsp | split; [right; reflexivity | exact Hq]] | reflexivity].
  - split; [split; [exact Hsp | split; [right; exact Ht | exact Hq]] | exact Ht].
Qed.

Lemma after_cancel_run :
  forall evs sp q0 s, after_cancel sp q0 s ->
  after_cancel sp q0 (run cr s evs) /\
  (In ConsumerRuns evs -> consumer_task (run cr s evs) = Some DoneCancelled).
Proof.
  induction evs as [|ev evs IH]; intros sp q0 s H; cbn.
  - split; [exact H | contradiction].
  - destruct ev as [a|].
    + destruct (IH sp q0 (enqueue s a) (after_cancel_enqueue sp q0 s a H)) as [H1 H2].
      split; [exact H1|]. intros [Hc|Hc]; [discriminate | exact (H2 Hc)].
    + destruct (after_cancel_consumer_step sp q0 s H) as [Hs Hd].
      destruct (IH sp q0 (consumer_step cr s) Hs) as [H1 _].
      split; [exact H1|]. intros _. apply done_run; [reflexivity | exact Hd].
Qed.

End Closing.

(** C7. For a dispatcher whose consumer task is running, [close_sync] on an
    empty queue pushes the sentinel and returns [True]; whatever producers
    and the consumer do afterwards, no further task is spawned, and once the
    consumer runs it has finished normally. On a non-empty queue it cancels
    the consumer and returns [True]; afterwards no further task is spawned,
    the queued entries stay in the queue, and once the consumer runs it has
    finished cancelled. *)
Theorem close_sync_graceful_or_cancel :
  forall (cr : nat -> bool) (s : QH), consumer_task s = Some Running ->
  (queue s = [] ->
   let (s', ret) := close_sync s in
   ret = true /\ queue s' = [Sentinel] /\
   forall evs, spawned (run cr s' evs) = spawned s /\
               (In ConsumerRuns evs -> consumer_task (run cr s' evs) = Some DoneOk)) /\
  (queue s <> [] ->
   let (s', ret) := close_sync s in
   ret = true /\
   forall evs, spawned (run cr s' evs) = spawned s /\
               (exists q, queue (run cr s' evs) = queue s ++ q) /\
               (In ConsumerRuns evs -> consumer_task (run cr s' evs) = Some DoneCancelled)).
Proof.
  intros cr s Hrun. unfold close_sync. rewrite Hrun. cbn [done negb].
  split; intros Hq.
  - rewrite Hq.
    assert (Hf : full s = false).
    { unfold full. rewrite Hq. cbn. destruct (Z.ltb_spec 0 (maxsize s)); cbn; [|reflexivity].
      apply Z.leb_gt. lia. }
    rewrite Hf. split; [reflexivity|]. split; [reflexivity|].
    intros evs.
    destruct (after_sentinel_run cr evs (spawned s) (set_queue s [Sentinel])) as [[H1 _] H2].
    { split; [reflexivity|]. left. split; [exact Hrun | exists []; reflexivity]. }
    split; [exact H1 | exact H2].
  - destruct (queue s) as [|x q] eqn:Eq; [contradiction|].
    split; [reflexivity|]. intros evs.
    destruct (after_cancel_run cr evs (spawned s) (x :: q) (set_task s CancelRequested))
      as [[H1 [_ H3]] H2].
    { split; [reflexivity|]. split; [left; reflexivity|]. exists []. cbn.
      rewrite Eq, app_nil_r. reflexivity. }
    split; [exact H1|]. split; [exact H3 | exact H2].
Qed.

(** * Witnesses: the theorems above applied at concrete inputs *)


Lemma get_attempts_at_most_two_witness :
  (3 <= 3)%nat /\
  (let (r, fams) := _get attempts_403_then_200 3 true in
   r <> GetAssertFail /\ r <> GetNoFuel /\ (List.length fams <= 2)%nat /\
   (List.length fams = 2%nat <->
      true = true /\
      ((exists e, attempts_403_then_200 1%nat AF_INET6 = AttRaise e
                  /\ catches EXCEPTIONS_SHOULD_RETRY e = true) \/
       (exists st, attempts_403_then_200 1%nat AF_INET6 = AttResp st
                   /\ In st [400; 403; 429; 451]))) /\
   (List.length fams = 2%nat -> fams = [AF_INET6; AF_INET])).
Proof.
  split; [lia|]. apply (get_attempts_at_most_two attempts_403_then_200 3 true). lia.
Defined.


Lemma feed_get_not_modified_witness :
  (resp_status resp_200_empty = 304 \/
   (resp_status resp_200_empty = 200 /\
    exists v, header_get (resp_headers resp_200_empty) "Content-Length" = Some v /\
              py_int v = Some 0)) /\
  exists r, feed_get unit (fun _ => Ok tt) (fun _ => true) "https://example.com/feed" true
                     (Ok resp_200_empty) = Ok r /\
            error unit r = None /\ rss_d unit r = None.
Proof.
  assert (H : resp_status resp_200_empty = 304 \/
              (resp_status resp_200_empty = 200 /\
               exists v, header_get (resp_headers resp_200_empty) "Content-Length" = Some v /\
                         py_int v = Some 0)).
  { right. split; [reflexivity|]. exists "0"%string. split; reflexivity. }
  split; [exact H|].
  exact (feed_get_not_modified unit (fun _ => Ok tt) (fun _ => true)
           "https://example.com/feed" true resp_200_empty H).
Defined.

(** C6: a [ClientError] escaping [get] becomes a ['network error']. *)
Lemma feed_get_captures_exceptions_witness :
  exists r' err,
    feed_get unit (fun _ => Ok tt) (fun _ => true) "https://example.com/feed" true
             (Raise ClientError) = Ok r' /\
    error unit r' = Some err /\ error_name err = "network error"%string.
Proof.
  destruct (feed_get_captures_exceptions unit (fun _ => Ok tt) (fun _ => true)
              "https://example.com/feed" true (Raise ClientError)) as [_ H].
  destruct (H _ ClientError eq_refl eq_refl) as [r' [err [H1 [H2 [_ [H4 _]]]]]].
  exists r', err. split; [exact H1|]. split; [exact H2|].
  apply H4; reflexivity.
Defined.

(** C10: an HTML [Content-Type] with [decode] reads the text. *)
Lemma norm_callback_content_type_gate_witness :
  __norm_callback [("Content-Type", "text/html; charset=utf-8")]%string true None
                  (Some "text/html"%string) = Ok (Some ReadText).
Proof.
  destruct (norm_callback_content_type_gate [("Content-Type", "text/html; charset=utf-8")]%string
              true None "text/html"%string ltac:(discriminate)) as [_ [H _]].
  apply H; reflexivity.
Defined.

(** C8: [_get] taking 50 s against [timeout = 3] with IPv6 priority
    (deadline 22 s) ends in [asyncio.TimeoutError]. *)
Lemma get_outer_deadline_witness :
  get (fun _ => (50%Q, Ok resp_404)) (Some 3%Q) true = Raise AsyncioTimeoutError.
Proof.
  rewrite (get_outer_deadline (fun _ => (50%Q, Ok resp_404)) 3%Q true ltac:(reflexivity)).
  reflexivity.
Defined.

(** C5: the fragment decoded as width 20, height 10 on its first chunk. *)
Lemma medium_info_jpeg_marker_witness :
  medium_info_loop (fun _ => DecOther OSError) true 1024 0 [] [sof0_fragment; [1; 2]] =
  ((20, 10), 1%nat).
Proof.
  assert (Hd : (fun _ : bytes => DecOther OSError) ([] ++ sof0_fragment) = DecOther OSError)
    by reflexivity.
  assert (Hp : find ([] ++ sof0_fragment) [255; 194] = -1 /\
               find ([] ++ sof0_fragment) [255; 193] = -1 /\
               find ([] ++ sof0_fragment) [255; 192] = 0 /\ 0 <> -1)
    by (vm_compute; repeat split; discriminate).
  assert (Hl : 0 + 9 <= Z.of_nat (List.length ([] ++ sof0_fragment)))
    by (vm_compute; discriminate).
  rewrite (medium_info_jpeg_marker (fun _ => DecOther OSError) 1024 0 [] sof0_fragment
             [[1; 2]] OSError 0 Hd (or_intror (or_intror Hp)) Hl).
  vm_compute. reflexivity.
Defined.

(** C9: a 404 answer with [Content-Disposition: attachment] makes
    [get_page_title] raise [TypeError]. *)
Lemma get_page_title_cd_type_error_witness :
  get_page_title (fun _ => None) "http://example.com/a/b.pdf" true true true
    (Ok resp_404_attachment) = Raise TypeError.
Proof.
  apply (get_page_title_cd_type_error (fun _ => None) "http://example.com/a/b.pdf"
           true true true (Ok resp_404_attachment) resp_404_attachment ValueError "attachment").
  - vm_compute. reflexivity.
  - vm_compute. reflexivity.
  - vm_compute. reflexivity.
  - discriminate.
Defined.

(** C1: [flood_wait(10)] at time 0 makes a call entering the gate at 0 get
    past it at 11. *)
Lemma flood_wait_gate_witness :
  create_page_gate 0 (snd (flood_wait 0 (mkTelegraph 1 Unlocked) 10)) = Some 11.
Proof.
  destruct (flood_wait_gate 0 (mkTelegraph 1 Unlocked) 10) as [_ [H _]].
  specialize (H eq_refl ltac:(lia)).
  destruct (flood_wait 0 (mkTelegraph 1 Unlocked) 10) as [act a'].
  destruct H as [_ [_ [H _]]]. cbn [snd].
  rewrite (proj1 (H 0 ltac:(lia))). reflexivity.
Defined.

(** C7: closing an idle dispatcher, then a producer and the consumer run:
    nothing is spawned and the consumer finished normally; closing a busy
    one: nothing is spawned and the consumer finished cancelled. *)
Lemma close_sync_graceful_or_cancel_witness :
  let s1 := run (fun _ => false) (fst (close_sync idle_helper)) [Produce 7; ConsumerRuns] in
  let s2 := run (fun _ => false) (fst (close_sync busy_helper)) [Produce 7; ConsumerRuns] in
  spawned s1 = [] /\ consumer_task s1 = Some DoneOk /\
  spawned s2 = [] /\ consumer_task s2 = Some DoneCancelled.
Proof.
  destruct (close_sync_graceful_or_cancel (fun _ => false) idle_helper eq_refl) as [H1 _].
  destruct (close_sync_graceful_or_cancel (fun _ => false) busy_helper eq_refl) as [_ H2].
  specialize (H1 eq_refl). specialize (H2 ltac:(discriminate)). cbn in H1, H2 |- *.
  destruct H1 as [_ [_ H1]]. destruct H2 as [_ H2].
  destruct (H1 [Produce 7; ConsumerRuns]) as [A B].
  destruct (H2 [Produce 7; ConsumerRuns]) as [C [_ D]].
  split; [exact A|]. split; [apply B; right; left; reflexivity|].
  split; [exact C | apply D; right; left; reflexivity].
Defined.

(** ** More properties of the code *)

Import ProxyFilter FetchResponse Accounts PageArgs QueueLifecycle WebErrorLog ApisInit.

(** Helper lemmas. *)

Lemma done_run_spawned :
  forall cr evs s t, done t = true -> consumer_task s = Some t ->
  spawned (run cr s evs) = spawned s.
Proof.
  intros cr; induction evs as [|ev evs IH]; intros s t Hd Ht; cbn; [reflexivity|].
  destruct ev as [a|].
  - rewrite (IH (enqueue s a) t Hd); unfold enqueue; destruct (full s); cbn; auto.
  - rewrite (IH (consumer_step cr s) t Hd).
    + unfold consumer_step. rewrite Ht. destruct t; try discriminate; reflexivity.
    + unfold consumer_step. rewrite Ht. destruct t; try discriminate; exact Ht.
Qed.

Lemma close_sync_idle :
  forall s : QH, consumer_task s = Some Running -> queue s = [] ->
  close_sync s = (set_queue s [Sentinel], true).
Proof.
  intros s Ht Hq. unfold close_sync. rewrite Ht, Hq. cbn [done].
  unfold full. rewrite Hq. cbn [List.length Z.of_nat].
  destruct (Z.ltb_spec 0 (maxsize s)); cbn [andb]; [|reflexivity].
  replace (maxsize s <=? 0) with false by (symmetry; apply Z.leb_gt; lia). reflexivity.
Qed.

Lemma enqueue_task :
  forall s a, consumer_task (enqueue s a) = consumer_task s /\ spawned (enqueue s a) = spawned s.
Proof. intros s a. unfold enqueue. destruct (full s); auto. Qed.

Lemma await_pending :
  forall cr evs s,
  consumer_task s = Some Running \/ consumer_task s = Some CancelRequested ->
  ~ In ConsumerRuns evs -> await_consumer cr s evs = None.
Proof.
  intros cr; induction evs as [|ev evs IH]; intros s Ht Hin; cbn [await_consumer].
  - unfold task_done. destruct Ht as [-> | ->]; reflexivity.
  - replace (task_done s) with false by (unfold task_done; destruct Ht as [-> | ->]; reflexivity).
    destruct ev as [a|]; [|exfalso; apply Hin; left; reflexivity].
    cbn [step]. apply IH.
    + rewrite (proj1 (enqueue_task s a)). exact Ht.
    + intros H. apply Hin. right. exact H.
Qed.

Lemma await_sentinel :
  forall cr evs s q (A : list nat),
  consumer_task s = Some Running -> queue s = Sentinel :: q ->
  incl q (map Work A) -> incl (produced evs) A -> In ConsumerRuns evs ->
  exists s2 rest, await_consumer cr s evs = Some (s2, rest) /\
    consumer_task s2 = Some DoneOk /\ spawned s2 = spawned s /\ incl (queue s2) (map Work A).
Proof.
  intros cr; induction evs as [|ev evs IH]; intros s q A Ht Hq HqA HA Hin; [destruct Hin|].
  cbn [await_consumer]. replace (task_done s) with false by (unfold task_done; rewrite Ht; reflexivity).
  destruct ev as [a|].
  - assert (Ha : In a A) by (apply HA; left; reflexivity).
    assert (HA' : incl (produced evs) A) by (intros x Hx; apply HA; right; exact Hx).
    assert (Hin' : In ConsumerRuns evs) by (destruct Hin as [H|H]; [discriminate | exact H]).
    cbn [step]. unfold enqueue. destruct (full s).
    + exact (IH s q A Ht Hq HqA HA' Hin').
    + destruct (IH (set_queue s (queue s ++ [Work a])) (q ++ [Work a]) A Ht)
        as [s2 [rest [H1 [H2 [H3 H4]]]]]; auto.
      * cbn. rewrite Hq. reflexivity.
      * intros x Hx. apply in_app_or in Hx. destruct Hx as [Hx|[<-|[]]]; [exact (HqA x Hx)|].
        apply in_map. exact Ha.
      * exists s2, rest. auto.
  - cbn [step]. unfold consumer_step. rewrite Ht, Hq.
    exists (set_task (set_queue s q) DoneOk), evs.
    destruct evs; cbn [await_consumer]; unfold task_done; cbn; auto.
Qed.

Lemma await_cancel :
  forall cr evs s,
  consumer_task s = Some CancelRequested -> In ConsumerRuns evs ->
  exists s2 rest, await_consumer cr s evs = Some (s2, rest) /\ consumer_task s2 = Some DoneCancelled.
Proof.
  intros cr; induction evs as [|ev evs IH]; intros s Ht Hin; [destruct Hin|].
  cbn [await_consumer]. replace (task_done s) with false by (unfold task_done; rewrite Ht; reflexivity).
  destruct ev as [a|].
  - assert (Hin' : In ConsumerRuns evs) by (destruct Hin as [H|H]; [discriminate | exact H]).
    cbn [step]. apply IH; [|exact Hin']. rewrite (proj1 (enqueue_task s a)). exact Ht.
  - cbn [step]. unfold consumer_step. rewrite Ht.
    replace (catches [Exception_] CancelledError) with false by reflexivity.
    exists (set_task s DoneCancelled), evs.
    destruct evs; cbn [await_consumer]; unfold task_done; cbn; auto.
Qed.

Lemma get_account_step :
  forall (A : Type) (a0 : A) (rest : list A) (c : Z),
  let n := Z.of_nat (List.length (a0 :: rest)) in
  get_account (a0 :: rest) c =
  Ok (nth (Z.to_nat (curr_index n c)) (a0 :: rest) a0, (curr_index n c + 1) mod n).
Proof.
  intros A a0 rest c n. unfold get_account, curr_index. fold n.
  assert (Hn : 0 < n) by (unfold n; cbn [List.length]; lia).
  set (c0 := if (0 <=? c) && (c <? n) then c else 0).
  assert (Hc0 : 0 <= c0 < n).
  { unfold c0. destruct (Z.leb_spec 0 c), (Z.ltb_spec c n); cbn [andb]; lia. }
  f_equal. f_equal.
  destruct (Z.leb_spec 0 (c0 + 1)), (Z.ltb_spec (c0 + 1) n); cbn [andb]; try lia.
  - symmetry. apply Z.mod_small. lia.
  - replace (c0 + 1) with n by lia. symmetry. apply Z.mod_same. lia.
Qed.

Lemma curr_index_range :
  forall n c, 0 < n -> 0 <= curr_index n c < n.
Proof.
  intros n c Hn. unfold curr_index.
  destruct (Z.leb_spec 0 c), (Z.ltb_spec c n); cbn [andb]; lia.
Qed.

Lemma curr_index_in_range :
  forall n c, 0 <= c < n -> curr_index n c = c.
Proof.
  intros n c Hc. unfold curr_index.
  destruct (Z.leb_spec 0 c), (Z.ltb_spec c n); cbn [andb]; lia.
Qed.

Lemma medium_info_callback_content_length :
  forall pil_open hdrs chunks wh,
  __medium_info_callback pil_open hdrs chunks = Ok wh ->
  exists cl, py_int (get_default hdrs "Content-Length" "1024") = Some cl.
Proof.
  intros pil_open hdrs chunks wh H. unfold __medium_info_callback in H.
  destruct (py_int (get_default hdrs "Content-Length" "1024")) as [cl|]; [eauto | discriminate].
Qed.

Lemma chars_prefix_length : forall p s, chars_prefix p s = true -> (List.length p <= List.length s)%nat.
Proof.
  induction p as [|a p IH]; intros [|b s] H; cbn in *; try lia; try discriminate.
  apply andb_prop in H as [_ H]. specialize (IH s H). lia.
Qed.

Lemma chars_prefix_same_length : forall p s, chars_prefix p s = true -> List.length p = List.length s -> p = s.
Proof.
  induction p as [|a p IH]; intros [|b s] H Hl; cbn in *; try discriminate; try reflexivity.
  apply andb_prop in H as [Ha H]. apply Ascii.eqb_eq in Ha as ->.
  rewrite (IH s H); [reflexivity|lia].
Qed.

Lemma chars_prefix_snoc : forall p c s, chars_prefix p s = true ->
  chars_prefix (p ++ [c]) s = match nth_error s (List.length p) with
                              | Some x => Ascii.eqb c x | None => false end.
Proof.
  induction p as [|a p IH]; intros c [|b s] H; cbn in *; try discriminate.
  - reflexivity.
  - rewrite andb_true_r. reflexivity.
  - apply andb_prop in H as [Ha H]. rewrite Ha. cbn. apply IH, H.
Qed.

Lemma chars_prefix_app_l : forall p q s, chars_prefix (p ++ q) s = true -> chars_prefix p s = true.
Proof.
  induction p as [|a p IH]; intros q [|b s] H; cbn in *; try discriminate; try reflexivity.
  apply andb_prop in H as [Ha H]. rewrite Ha. cbn. exact (IH q s H).
Qed.

Lemma list_ascii_of_string_length : forall s, List.length (list_ascii_of_string s) = String.length s.
Proof. induction s; cbn; congruence. Qed.

Lemma any_bypassed_some : forall h ds,
  any_bypassed (Some h) ds = PRet (existsb (domain_bypassed h) ds).
Proof.
  intros h ds. induction ds as [|d ds IH]; [reflexivity|].
  cbn [any_bypassed existsb]. unfold domain_bypassed at 1.
  unfold endswith. cbn [list_ascii_of_string rev].
  destruct (chars_prefix (rev (list_ascii_of_string d)) (rev (list_ascii_of_string h))) eqn:Hp.
  - destruct (String.eqb_spec h d) as [->|Hne]; [reflexivity|]. cbn [orb].
    rewrite (chars_prefix_snoc _ _ _ Hp).
    assert (Hlt : (List.length (rev (list_ascii_of_string d)) < List.length (rev (list_ascii_of_string h)))%nat).
    { pose proof (chars_prefix_length _ _ Hp) as Hle.
      destruct (Nat.eq_dec (List.length (rev (list_ascii_of_string d))) (List.length (rev (list_ascii_of_string h)))) as [He|He]; [|lia].
      exfalso. apply Hne. pose proof (chars_prefix_same_length _ _ Hp He) as Heq.
      apply (f_equal (@rev ascii)) in Heq. rewrite !rev_involutive in Heq.
      rewrite <- (string_of_list_ascii_of_string h), <- (string_of_list_ascii_of_string d), Heq.
      reflexivity. }
    rewrite !length_rev, !list_ascii_of_string_length in Hlt.
    unfold index_from_end.
    replace (Nat.leb 1 (String.length d + 1) && Nat.leb (String.length d + 1) (String.length h)) with true
      by (symmetry; apply andb_true_intro; split; apply Nat.leb_le; lia).
    replace (String.length d + 1 - 1)%nat with (List.length (rev (list_ascii_of_string d)))
      by (rewrite length_rev, list_ascii_of_string_length; lia).
    destruct (nth_error (rev (list_ascii_of_string h)) (List.length (rev (list_ascii_of_string d)))) as [x|] eqn:Hx.
    + rewrite (Ascii.eqb_sym "."%char x). destruct (Ascii.eqb x "."%char); [reflexivity|exact IH].
    + exfalso. apply nth_error_None in Hx. rewrite !length_rev, !list_ascii_of_string_length in Hx. lia.
  - destruct (String.eqb_spec h d) as [->|Hne].
    + exfalso. clear -Hp. induction (rev (list_ascii_of_string d)) as [|a l IHl]; cbn in Hp; [discriminate|].
      rewrite Ascii.eqb_refl in Hp. exact (IHl Hp).
    + cbn [orb].
      destruct (chars_prefix (rev (list_ascii_of_string d) ++ ["."%char]) (rev (list_ascii_of_string h))) eqn:Hq.
      * apply chars_prefix_app_l in Hq. congruence.
      * exact IH.
Qed.

Lemma string_app_assoc : forall a b c : string, ((a ++ b) ++ c)%string = (a ++ (b ++ c))%string.
Proof. induction a as [|x a IH]; intros b c; cbn; [reflexivity|now rewrite IH]. Qed.

Lemma string_app_nil_r : forall a : string, (a ++ "")%string = a.
Proof. induction a as [|x a IH]; cbn; [reflexivity|now rewrite IH]. Qed.

Lemma feed_get_try_return_no_base_error :
  forall FPD parse has_title url log_lvl outcome r we,
  feed_get_try FPD parse has_title url log_lvl outcome = TryReturn FPD r ->
  error FPD r = Some we -> base_error we = None.
Proof.
  intros FPD parse has_title url log_lvl outcome r we H He.
  unfold feed_get_try in H.
  destruct outcome as [resp|e]; [|discriminate].
  destruct (if resp_status resp =? 200 then _ else Ok false) as [[|]|e]; [| |discriminate].
  - injection H as <-. discriminate.
  - destruct (resp_status resp =? 304); [injection H as <-; discriminate|].
    destruct (resp_content resp) as [c|].
    + destruct (parse c) as [d|e]; [|discriminate].
      destruct (has_title d); injection H as <-; cbn in He; [discriminate|].
      injection He as <-. reflexivity.
    + injection H as <-. cbn in He. injection He as <-. reflexivity.
Qed.

(** X1. While the consumer task runs on an unbounded queue that holds no
    stop entry, it keeps running and no stop entry appears. An item whose
    [create_task(func(...))] statement raises is taken off the queue and
    dropped (the loop's [except Exception] logs it); every other item
    produced is either started (in [spawned]) or still queued, in the
    order of production: none of those is lost, duplicated or reordered. *)
Theorem queued_work_started_in_order :
  forall (cr : nat -> bool) (evs : list event) (s : QH),
  consumer_task s = Some Running -> maxsize s <= 0 -> ~ In Sentinel (queue s) ->
  consumer_task (run cr s evs) = Some Running /\ ~ In Sentinel (queue (run cr s evs)) /\
  spawned (run cr s evs) ++ filter (fun a => negb (cr a)) (works (queue (run cr s evs))) =
  spawned s ++ filter (fun a => negb (cr a)) (works (queue s) ++ produced evs).
Proof.
  intros cr; induction evs as [|ev evs IH]; intros s Ht Hm Hq; cbn [run].
  - cbn [produced flat_map]. rewrite app_nil_r. auto.
  - destruct ev as [a|].
    + change (produced (Produce a :: evs)) with (a :: produced evs).
      unfold enqueue, full. replace (0 <? maxsize s) with false by (symmetry; apply Z.ltb_ge; lia).
      cbn [andb]. destruct (IH (set_queue s (queue s ++ [Work a]))) as [H1 [H2 H3]]; cbn; auto.
      { rewrite in_app_iff. intros [H|[H|H]]; [contradiction|discriminate|contradiction]. }
      split; [exact H1|]. split; [exact H2|]. rewrite H3. cbn [spawned set_queue queue].
      unfold works at 1. rewrite flat_map_app. fold (works (queue s)). cbn [flat_map].
      rewrite <- app_assoc. reflexivity.
    + change (produced (ConsumerRuns :: evs)) with (produced evs).
      unfold consumer_step. rewrite Ht. destruct (queue s) as [|[a|] q] eqn:Eq.
      * rewrite <- Eq. apply (IH s Ht Hm). rewrite Eq. auto.
      * assert (Hq' : ~ In Sentinel q) by (intros H; apply Hq; right; exact H).
        destruct (cr a) eqn:Ha.
        -- destruct (IH (set_queue s q)) as [H1 [H2 H3]]; cbn; auto.
           split; [exact H1|]. split; [exact H2|]. rewrite H3. cbn [spawned set_queue queue].
           change (works (Work a :: q)) with (a :: works q). cbn [app].
           cbn [filter]. rewrite Ha. reflexivity.
        -- destruct (IH (mkQH q (maxsize s) (Some Running) (spawned s ++ [a]))) as [H1 [H2 H3]];
             cbn; auto.
           split; [exact H1|]. split; [exact H2|]. rewrite H3. cbn [spawned].
           change (works (Work a :: q)) with (a :: works q). cbn [app].
           cbn [filter]. rewrite Ha. cbn [negb]. rewrite <- app_assoc. reflexivity.
      * exfalso. apply Hq. left. reflexivity.
Qed.

(** X2. Two calls of [close_sync] on a running consumer with an empty
    queue: the first puts the stop entry and returns [True]; the second
    finds the queue non-empty, cancels the task and returns [True]; the
    consumer then ends cancelled with the stop entry never consumed. *)
Theorem close_sync_twice_cancels :
  forall (cr : nat -> bool) (s : QH),
  consumer_task s = Some Running -> queue s = [] ->
  let (s1, b1) := close_sync s in
  let (s2, b2) := close_sync s1 in
  b1 = true /\ b2 = true /\ queue s2 = [Sentinel] /\
  consumer_task s2 = Some CancelRequested /\
  consumer_task (consumer_step cr s2) = Some DoneCancelled.
Proof.
  intros cr s Ht Hq. rewrite (close_sync_idle s Ht Hq).
  unfold close_sync. cbn. rewrite Ht. cbn. auto.
Qed.

(** X3. [close] while the other tasks of the loop run the events [evs]: for
    a running consumer with an empty queue, it returns once the consumer
    has run, the consumer having finished normally, no item started, and
    only items produced during the await left in the queue (never
    started); for a running consumer with a non-empty queue it raises
    [CancelledError] (not caught by [except Exception]) once the consumer
    has run; until the consumer runs it does not return; with no task or a
    finished task it returns at once and changes nothing. *)
Theorem close_outcome :
  forall (cr : nat -> bool) (s : QH) (evs : list event),
  (consumer_task s = Some Running -> queue s = [] -> In ConsumerRuns evs ->
   exists s', close cr s evs = Some (Ok s') /\ consumer_task s' = Some DoneOk /\
              spawned s' = spawned s /\ incl (queue s') (map Work (produced evs))) /\
  (consumer_task s = Some Running -> queue s <> [] -> In ConsumerRuns evs ->
   close cr s evs = Some (Raise CancelledError)) /\
  (consumer_task s = Some Running -> ~ In ConsumerRuns evs -> close cr s evs = None) /\
  (consumer_task s = None \/ consumer_task s = Some DoneOk \/ consumer_task s = Some DoneCancelled ->
   close cr s evs = Some (Ok s)).
Proof.
  intros cr s evs. split; [|split; [|split]].
  - intros Ht Hq Hin. unfold close. rewrite (close_sync_idle s Ht Hq).
    destruct (await_sentinel cr evs (set_queue s [Sentinel]) [] (produced evs) Ht eq_refl)
      as [s2 [rest [Ha [Hd [Hsp Hincl]]]]].
    + intros x [].
    + intros x Hx. exact Hx.
    + exact Hin.
    + rewrite Ha, Hd. exists s2. split; [reflexivity|]. auto.
  - intros Ht Hq Hin. unfold close, close_sync. rewrite Ht. cbn [done negb].
    destruct (queue s) as [|x q]; [contradiction|].
    destruct (await_cancel cr evs (set_task s CancelRequested) eq_refl Hin)
      as [s2 [rest [Ha Hd]]].
    rewrite Ha, Hd. reflexivity.
  - intros Ht Hin. destruct (queue s) as [|x q] eqn:Hq.
    + unfold close. rewrite (close_sync_idle s Ht Hq).
      rewrite (await_pending cr evs (set_queue s [Sentinel])); auto.
    + unfold close, close_sync. rewrite Ht, Hq. cbn [done negb].
      rewrite (await_pending cr evs (set_task s CancelRequested)); auto.
  - intros [Ht|[Ht|Ht]]; unfold close, close_sync; rewrite Ht; reflexivity.
Qed.

(** X4. [init_sync] right after a graceful [close_sync] does nothing (the
    consumer task is not done yet), so the stop entry stays queued: no item
    produced afterwards is ever started, and the consumer finishes normally
    once it runs. *)
Theorem init_sync_after_close_sync_keeps_stop :
  forall (cr : nat -> bool) (s : QH) (evs : list event),
  consumer_task s = Some Running -> queue s = [] ->
  let s1 := init_sync (fst (close_sync s)) in
  s1 = fst (close_sync s) /\ snd (close_sync s) = true /\
  spawned (run cr s1 evs) = spawned s /\
  (In ConsumerRuns evs -> consumer_task (run cr s1 evs) = Some DoneOk).
Proof.
  intros cr s evs Ht Hq.
  assert (Hc : close_sync s = (set_queue s [Sentinel], true)).
  { unfold close_sync. rewrite Ht, Hq. cbn. unfold full. rewrite Hq. cbn.
    destruct (Z.ltb_spec 0 (maxsize s)).
    - replace (maxsize s <=? 0) with false by (symmetry; apply Z.leb_gt; lia). reflexivity.
    - reflexivity. }
  rewrite Hc. cbn.
  assert (Hi : init_sync (set_queue s [Sentinel]) = set_queue s [Sentinel]).
  { unfold init_sync. cbn. rewrite Ht. reflexivity. }
  rewrite Hi.
  assert (Ha : after_sentinel (spawned s) (set_queue s [Sentinel])).
  { split; [reflexivity|]. left. split; [exact Ht|]. exists []. reflexivity. }
  destruct (after_sentinel_run cr evs _ _ Ha) as [[Hsp _] Hd].
  auto.
Qed.

(** X5. After the consumer task has finished, [queued_nowait] still accepts
    an item, but nothing ever starts it; a later [init_sync] replaces the
    queue with an empty one (dropping it) and starts a new consumer. *)
Theorem queued_after_stop_never_started :
  forall (cr : nat -> bool) (s s' : QH) (a : nat) (evs : list event),
  consumer_task s = Some DoneOk \/ consumer_task s = Some DoneCancelled ->
  queued_nowait s a = PutOk s' ->
  In (Work a) (queue s') /\
  spawned (run cr s' evs) = spawned s /\
  queue (init_sync (run cr s' evs)) = [] /\
  consumer_task (init_sync (run cr s' evs)) = Some Running.
Proof.
  intros cr s s' a evs Hd Hp.
  assert (Ht : exists t, done t = true /\ consumer_task s = Some t)
    by (destruct Hd as [H|H]; eexists; split; [|exact H| |exact H]; reflexivity).
  destruct Ht as [t [Hdt Ht]].
  unfold queued_nowait in Hp. rewrite Ht in Hp. destruct (full s); [discriminate|].
  cbn in Hp. injection Hp as <-.
  assert (Ht' : consumer_task (set_queue s (queue s ++ [Work a])) = Some t) by exact Ht.
  split; [cbn; apply in_or_app; right; left; reflexivity|].
  split; [rewrite (done_run_spawned cr evs _ t Hdt Ht'); reflexivity|].
  unfold init_sync. rewrite (done_run cr evs _ t Hdt Ht'). rewrite Hdt. cbn. auto.
Qed.

(** X6. When a [create_page] attempt (with fewer than 3 retries) hits flood
    control, [telegraph_ify] never returns a page URL: it returns [None]
    (the result of [flood_wait]) or raises. *)
Theorem telegraph_ify_flood_returns_none :
  forall (create_page_at : nat -> create_outcome) (flood_wait_at : nat -> option pyexc)
         (flood_wait_first : nat -> bool) (fuel retries attempts : nat) (n : Z),
  (retries < 3)%nat -> create_page_at attempts = FloodWait n ->
  forall url, fst (telegraph_ify create_page_at flood_wait_at flood_wait_first (S fuel) retries attempts)
              <> TReturn (Some url).
Proof.
  intros cpa fw ff fuel retries attempts n Hr Hc url. cbn [telegraph_ify].
  replace (Nat.leb 3 retries) with false by (symmetry; apply Nat.leb_gt; lia).
  rewrite Hc. destruct (telegraph_ify cpa fw ff fuel (S retries) (S attempts)) as [[v| |] k];
    destruct (fw attempts); cbn [fst]; congruence.
Qed.

(** X7. Without network failures, [telegraph_ify] makes at most
    [3 - retries] more calls of [create_page] than already made, and ends
    within [4 - retries] steps. *)
Theorem telegraph_ify_calls_bounded :
  forall (create_page_at : nat -> create_outcome) (flood_wait_at : nat -> option pyexc)
         (flood_wait_first : nat -> bool),
  (forall k e, create_page_at k <> NetworkFailure e) ->
  forall fuel retries attempts, (retries <= 3)%nat ->
  let (r, n) := telegraph_ify create_page_at flood_wait_at flood_wait_first fuel retries attempts in
  (n <= attempts + (3 - retries))%nat /\ ((4 - retries <= fuel)%nat -> r <> TNoFuel).
Proof.
  intros cpa fw ff Hnet fuel. induction fuel as [|fuel IH]; intros retries attempts Hr;
    cbn [telegraph_ify].
  - split; [lia|]. intros Hf. exfalso. lia.
  - destruct (Nat.leb_spec 3 retries).
    + split; [lia | discriminate].
    + destruct (cpa attempts) eqn:Hc.
      * split; [lia | discriminate].
      * specialize (IH (S retries) (S attempts) ltac:(lia)).
        destruct (telegraph_ify cpa fw ff fuel (S retries) (S attempts)) as [r n] eqn:Ht.
        destruct IH as [IH1 IH2].
        destruct (fw attempts); destruct r; (split; [lia|]); try discriminate;
          intros Hf; exact (IH2 ltac:(lia)).
      * split; [lia | discriminate].
      * split; [lia | discriminate].
      * exfalso. exact (Hnet attempts e Hc).
Qed.

(** X8. Three flood-control answers in a row make [telegraph_ify] raise
    after exactly three calls of [create_page]. The exception is
    [OverflowError] when none of the three [flood_wait] calls raises;
    otherwise it may be the exception of one of them (a failing
    [create_account]), which [asyncio.gather] propagates instead. *)
Theorem telegraph_ify_three_floods_overflow :
  forall (create_page_at : nat -> create_outcome) (flood_wait_at : nat -> option pyexc)
         (flood_wait_first : nat -> bool) (fuel : nat) (n0 n1 n2 : Z),
  create_page_at 0%nat = FloodWait n0 -> create_page_at 1%nat = FloodWait n1 ->
  create_page_at 2%nat = FloodWait n2 -> (4 <= fuel)%nat ->
  exists e,
    telegraph_ify create_page_at flood_wait_at flood_wait_first fuel 0 0 = (TRaise e, 3%nat) /\
    (e = OverflowError \/ exists k, (k < 3)%nat /\ flood_wait_at k = Some e) /\
    ((forall k, (k < 3)%nat -> flood_wait_at k = None) -> e = OverflowError).
Proof.
  intros cpa fw ff fuel n0 n1 n2 H0 H1 H2 Hf.
  destruct fuel as [|[|[|[|fuel]]]]; try lia.
  simpl. rewrite H0, H1, H2. simpl.
  destruct (fw 0%nat) as [e0|] eqn:E0, (fw 1%nat) as [e1|] eqn:E1, (fw 2%nat) as [e2|] eqn:E2;
    destruct (ff 0%nat), (ff 1%nat), (ff 2%nat);
    (eexists; split; [reflexivity|]);
    (split;
     [ first [ left; reflexivity
             | right; exists 0%nat; split; [lia | exact E0]
             | right; exists 1%nat; split; [lia | exact E1]
             | right; exists 2%nat; split; [lia | exact E2] ]
     | intros Hn; pose proof (Hn 0%nat ltac:(lia)); pose proof (Hn 1%nat ltac:(lia));
       pose proof (Hn 2%nat ltac:(lia)); congruence ]).
Qed.

(** X9. [APIs.get_account] with no account raises [TelegraphError]; with
    accounts, [k] successive calls return the accounts in cyclic order
    starting from [_curr_id] (or from 0 when [_curr_id] is out of range). *)
Theorem get_account_round_robin :
  forall (A : Type) (curr_id : Z) (k : nat),
  get_account (@nil A) curr_id = Raise TelegraphError /\
  forall (a0 : A) (rest : list A),
  let accounts := a0 :: rest in
  let n := Z.of_nat (List.length accounts) in
  exists c',
    get_account_n accounts curr_id k =
    Ok (map (fun i => nth (Z.to_nat ((curr_index n curr_id + Z.of_nat i) mod n)) accounts a0)
            (seq 0 k), c').
Proof.
  intros A curr_id k. split; [reflexivity|].
  intros a0 rest accounts n.
  assert (Hn : 0 < n) by (unfold n, accounts; cbn [List.length]; lia).
  revert curr_id. induction k as [|k IH]; intros c.
  - exists c. reflexivity.
  - cbn [get_account_n]. unfold accounts. rewrite get_account_step. fold accounts n.
    set (ci := curr_index n c).
    assert (Hci : 0 <= ci < n) by (apply curr_index_range; exact Hn).
    set (c1 := (ci + 1) mod n).
    assert (Hc1 : 0 <= c1 < n) by (apply Z.mod_pos_bound; exact Hn).
    destruct (IH c1) as [c' Hc']. rewrite Hc'. exists c'.
    rewrite (curr_index_in_range n c1 Hc1).
    cbn [seq map]. rewrite <- seq_shift, map_map.
    f_equal. f_equal. f_equal.
    + rewrite Z.add_0_r, Z.mod_small by exact Hci. reflexivity.
    + apply map_ext. intros i. f_equal. f_equal. unfold c1.
      rewrite Z.add_mod_idemp_l by lia. f_equal. lia.
Qed.

(** X10. The arguments [telegraph_ify] passes to [create_page]: the title has
    at most 61 characters (kept when it fits, else its first 60 and an
    ellipsis; the bot's name for an empty title), the author name at most
    128 and the author URL at most 512; an author already contained in a
    non-empty feed title is not appended to it. *)
Theorem create_page_args_within_limits :
  forall (title feed_title author link : option ustr),
  let tt := telegraph_title title in
  let fields := telegraph_author_fields feed_title author link in
  let '(t, an, au) := create_page_args tt (fst fields) (snd fields) in
  (List.length t <= 61)%nat /\ (List.length an <= 128)%nat /\ (List.length au <= 512)%nat /\
  ((List.length tt <= 61)%nat -> t = tt) /\
  ((61 < List.length tt)%nat -> t = firstn 60 tt ++ [ELLIPSIS]) /\
  (utruthy title = false -> t = GENERATED_BY) /\
  (forall ft au', feed_title = Some ft -> ft <> [] -> author = Some au' ->
   ucontains ft au' = true -> an = firstn 128 ft).
Proof.
  intros title feed_title author link tt fields. unfold create_page_args.
  assert (Htt : utruthy title = false -> tt = GENERATED_BY).
  { unfold tt, telegraph_title. destruct title as [[|x t]|]; cbn; auto. discriminate. }
  assert (HG : List.length GENERATED_BY = 18%nat) by reflexivity.
  destruct (Nat.ltb_spec 61 (List.length tt)) as [Hl|Hl];
    (split; [|split; [|split; [|split; [|split; [|split]]]]]);
    rewrite ?length_app, ?length_firstn; cbn [List.length]; try lia.
  - intros _. reflexivity.
  - intros Hf. rewrite (Htt Hf) in Hl. rewrite HG in Hl. lia.
  - intros ft au' Hft Hne Hau Hc. unfold fields, telegraph_author_fields.
    rewrite Hft, Hau. destruct ft as [|x ft]; [congruence|]. cbn [utruthy fst].
    destruct au' as [|y au']; [reflexivity|]. cbn [utruthy]. rewrite Hc. reflexivity.
  - intros _. reflexivity.
  - exact Htt.
  - intros ft au' Hft Hne Hau Hc. unfold fields, telegraph_author_fields.
    rewrite Hft, Hau. destruct ft as [|x ft]; [congruence|]. cbn [utruthy fst].
    destruct au' as [|y au']; [reflexivity|]. cbn [utruthy]. rewrite Hc. reflexivity.
Qed.

(** X11. [__medium_info_callback] reads no chunk and returns [(-1, -1)] for a
    content type that is not a non-webp image when it is neither webp nor
    [application/octet-stream], or when its [Content-Length] exceeds 5 KiB. *)
Theorem medium_info_callback_type_gate :
  forall (pil_open : bytes -> decode_result) (hdrs : headers) (chunks : list bytes) (cl : Z),
  let content_type := lower (get_default hdrs "Content-Type" EmptyString) in
  py_int (get_default hdrs "Content-Length" "1024") = Some cl ->
  (startswith content_type "image" = false \/ str_contains content_type "webp" = true) ->
  ((str_contains content_type "webp" = false /\
    content_type <> "application/octet-stream"%string) \/ 5 * 1024 < cl) ->
  __medium_info_callback pil_open hdrs chunks = Ok (-1, -1).
Proof.
  intros pil_open hdrs chunks cl ct Hcl Himg Hwebp.
  unfold __medium_info_callback. fold ct. rewrite Hcl.
  replace (negb _) with true; [reflexivity|].
  symmetry. apply negb_true_iff. apply orb_false_iff. split.
  - destruct Himg as [H|H]; rewrite H; [reflexivity | apply andb_false_r].
  - destruct Hwebp as [[Hw Ho]|Hc].
    + rewrite Hw. apply String.eqb_neq in Ho. rewrite Ho. reflexivity.
    + apply andb_false_intro2. apply Z.leb_gt. lia.
Qed.

(** X12. The chunk loop of [__medium_info_callback] reads at most all the
    chunks, reads a further chunk only while less than [max_read_length]
    bytes have been read, and returns [(-1, -1)] when there is no chunk. *)
Theorem medium_info_loop_read_bound :
  forall (pil_open : bytes -> decode_result) (is_jpeg : bool) (chunks : list bytes)
         (max_read_length already_read : Z) (buffer : bytes),
  let (r, n) := medium_info_loop pil_open is_jpeg max_read_length already_read buffer chunks in
  (n <= List.length chunks)%nat /\
  ((n <= 1)%nat \/ already_read + total_len (firstn (pred n) chunks) < max_read_length) /\
  (n = 0%nat -> r = (-1, -1)).
Proof.
  intros pil_open is_jpeg chunks. induction chunks as [|chunk rest IH];
    intros mrl ar buffer; cbn [medium_info_loop].
  - cbn. auto.
  - set (ar' := ar + Z.of_nat (List.length chunk)).
    assert (Hc : forall (u : unit),
      let (r, n) := (if ar' >=? mrl then ((-1, -1), 1%nat)
                     else let (r, n) := medium_info_loop pil_open is_jpeg mrl ar' (buffer ++ chunk) rest in
                          (r, S n)) in
      (n <= List.length (chunk :: rest))%nat /\
      ((n <= 1)%nat \/ ar + total_len (firstn (pred n) (chunk :: rest)) < mrl) /\
      (n = 0%nat -> r = (-1, -1))).
    { intros _. destruct (Z.geb_spec ar' mrl) as [Hge|Hlt].
      - cbn [List.length]. split; [lia|]. split; [left; lia | discriminate].
      - specialize (IH mrl ar' (buffer ++ chunk)).
        destruct (medium_info_loop pil_open is_jpeg mrl ar' (buffer ++ chunk) rest) as [r n].
        destruct IH as [IH1 [IH2 _]]. cbn [List.length].
        split; [lia|]. split; [|discriminate]. right.
        destruct n as [|n].
        + cbn. unfold ar' in Hlt. lia.
        + cbn [pred firstn total_len fold_right]. fold (total_len (firstn n rest)).
          destruct IH2 as [Hn|Hn].
          * assert (n = 0%nat) by lia. subst n. cbn. unfold ar' in Hlt. lia.
          * cbn [pred] in Hn. unfold ar' in Hn. lia. }
    destruct (pil_open (buffer ++ chunk)) as [w h| |e].
    + cbn [List.length]. split; [lia|]. split; [left; lia | discriminate].
    + cbn [List.length]. split; [lia|]. split; [left; lia | discriminate].
    + destruct is_jpeg; [destruct (jpeg_sof_size (buffer ++ chunk))|]; try exact (Hc tt).
      cbn [List.length]. split; [lia|]. split; [left; lia | discriminate].
Qed.

(** X13. [get_medium_info] lets no [Exception] out; a result
    [(size, width, height, content_type)] comes from a non-[data:] URL
    fetched with status 200, whose callback gave [(width, height)], with
    the response's [Content-Type] and a size that is -1 or the integer
    value of its [Content-Length]. *)
Theorem get_medium_info_outcome :
  forall (pil_open : bytes -> decode_result) (url : string)
         (fetch : py_result (Z * headers)) (chunks : list bytes),
  (forall e, get_medium_info pil_open url fetch chunks = Raise e ->
   catches [Exception_] e = false) /\
  (forall size width height content_type,
   get_medium_info pil_open url fetch chunks = Ok (Some (size, width, height, content_type)) ->
   startswith url "data:" = false /\
   exists hdrs, fetch = Ok (200, hdrs) /\
     __medium_info_callback pil_open hdrs chunks = Ok (width, height) /\
     content_type = header_get hdrs "Content-Type" /\
     (size = -1 \/ exists v, header_get hdrs "Content-Length" = Some v /\ py_int v = Some size)).
Proof.
  intros pil_open url fetch chunks. unfold get_medium_info.
  destruct (startswith url "data:") eqn:Hd; [split; intros; discriminate|].
  destruct fetch as [[status hdrs]|e0].
  2:{ cbv beta iota zeta. destruct (catches [Exception_] e0) eqn:Hc; split; intros; try discriminate.
      injection H as <-. exact Hc. }
  cbv beta iota zeta.
  destruct (status =? 200) eqn:Hs.
  2:{ cbv beta iota zeta. rewrite Hs. cbn [negb]. split; intros; discriminate. }
  destruct (__medium_info_callback pil_open hdrs chunks) as [[w h]|e0] eqn:Hcb.
  2:{ cbv beta iota zeta. destruct (catches [Exception_] e0) eqn:Hc; split; intros; try discriminate.
      injection H as <-. exact Hc. }
  cbv beta iota zeta. rewrite Hs. cbn [negb]. apply Z.eqb_eq in Hs. subst status.
  destruct (medium_info_callback_content_length _ _ _ _ Hcb) as [cl Hcl].
  unfold get_default in Hcl.
  destruct (header_get hdrs "Content-Length") as [v|] eqn:Hv.
  - destruct (String.eqb_spec v EmptyString) as [He|He].
    + split; [intros ? ?; discriminate|]. intros size width height ct H. injection H as <- <- <- <-.
      split; [reflexivity|]. exists hdrs. repeat split; auto.
    + rewrite Hcl. split; [intros ? ?; discriminate|]. intros size width height ct H.
      injection H as <- <- <- <-. split; [reflexivity|]. exists hdrs. repeat split; eauto.
  - split; [intros ? ?; discriminate|]. intros size width height ct H. injection H as <- <- <- <-.
    split; [reflexivity|]. exists hdrs. repeat split; auto.
Qed.

(** X14. [feed_get] over the response [_get] builds with its callback: a
    status other than 200 and 304 gives a [status code error] whose status
    is the code and reason; 304 gives a bare 304; a 200 with a zero
    [Content-Length] is reported as 304; a 200 with a feed that has a title
    gives the parsed feed and no error. The reason is never copied. *)
Theorem feed_get_over_response :
  forall (FPD : Type) (parse : string -> py_result FPD) (has_title : FPD -> bool)
         (url : string) (verbose : bool) (status : Z) (hdrs : headers)
         (reason : option string) (body : string),
  let log_lvl := if verbose then WARNING else DEBUG in
  let outcome := final_response feed_callback url status hdrs reason body in
  (status <> 200 -> status <> 304 ->
   feed_get FPD parse has_title url verbose outcome =
   Ok (mkWebFeed FPD url (Some hdrs) status None None
         (Some (mkWebError "status code error" (Some (status_caption status reason))
                           None log_lvl)))) /\
  (status = 304 ->
   feed_get FPD parse has_title url verbose outcome =
   Ok (mkWebFeed FPD url (Some hdrs) 304 None None None)) /\
  (status = 200 ->
   py_int (match header_get hdrs "Content-Length" with Some v => v | None => "1" end) = Some 0 ->
   feed_get FPD parse has_title url verbose outcome =
   Ok (mkWebFeed FPD url (Some hdrs) 304 None None None)) /\
  (status = 200 ->
   forall cl d, py_int (match header_get hdrs "Content-Length" with Some v => v | None => "1" end) = Some cl ->
   cl <> 0 -> parse body = Ok d -> has_title d = true ->
   feed_get FPD parse has_title url verbose outcome =
   Ok (mkWebFeed FPD url (Some hdrs) 200 None (Some d) None)).
Proof.
  intros FPD parse has_title url verbose status hdrs reason body log_lvl outcome.
  subst outcome log_lvl.
  repeat split.
  - intros H200 H304. unfold feed_get, feed_get_try, final_response.
    apply Z.eqb_neq in H200. apply Z.eqb_neq in H304. rewrite H200. cbn [resp_status resp_content resp_url resp_headers resp_reason].
    rewrite H200, H304. reflexivity.
  - intros ->. reflexivity.
  - intros -> Hcl. unfold feed_get, feed_get_try, final_response.
    cbn - [py_int header_get]. rewrite Hcl. reflexivity.
  - intros -> cl d Hcl Hcl0 Hp Ht. unfold feed_get, feed_get_try, final_response.
    cbn - [py_int header_get]. rewrite Hcl.
    apply Z.eqb_neq in Hcl0. rewrite Hcl0. rewrite Hp, Ht. reflexivity.
Qed.

(** X15. [proxy_filter] for a host string routes through the proxy exactly
    when the host is not (with [PROXY_BYPASS_PRIVATE]) a private IP address
    and matches no bypass domain (equal to it or ending in a dot and it);
    the [IndexError] of the index never happens. Without a host it raises
    [AttributeError] when bypass domains are set, and returns [True]
    otherwise. With [parse=False] it is this function of the URL string. *)
Theorem proxy_filter_host_decision :
  forall (PRIV : bool) (D : list string) (ip_is_private : string -> option bool),
  (forall h, proxy_filter_host PRIV D ip_is_private (Some h) =
     PRet (negb ((PRIV && match ip_is_private h with Some true => true | _ => false end)
                 || existsb (domain_bypassed h) D))) /\
  proxy_filter_host PRIV D ip_is_private None =
     match D with [] => PRet true | _ :: _ => PRaise AttributeError end /\
  (forall url, proxy_filter PRIV D ip_is_private url false =
     proxy_filter_host PRIV D ip_is_private (Some url)).
Proof.
  intros PRIV D ip. split.
  - intros h. unfold proxy_filter_host, proxy_filter_rest, bypass_flags_set.
    destruct PRIV; cbn [orb andb negb].
    + destruct (ip h) as [[|]|]; cbn [orb negb].
      * reflexivity.
      * destruct D as [|d ds]; [reflexivity|]. rewrite any_bypassed_some.
        destruct (existsb (domain_bypassed h) (d :: ds)); reflexivity.
      * destruct D as [|d ds]; [reflexivity|]. rewrite any_bypassed_some.
        destruct (existsb (domain_bypassed h) (d :: ds)); reflexivity.
    + destruct D as [|d ds]; [reflexivity|]. cbn [negb]. rewrite any_bypassed_some.
      destruct (existsb (domain_bypassed h) (d :: ds)); reflexivity.
  - split.
    + unfold proxy_filter_host, proxy_filter_rest, bypass_flags_set.
      destruct PRIV, D; reflexivity.
    + intros url. unfold proxy_filter, proxy_filter_host. destruct (negb _); reflexivity.
Qed.

(** X16. The log record of every [WebError] of [feed_get]: an error without
    a base exception logs none; an [internal error] is logged at [ERROR]
    with the exception as [exc_info]; a [network error] names the
    exception class in the message and carries no [exc_info]. *)
Theorem feed_get_error_log :
  forall (exc_name : pyexc -> string) FPD parse has_title url verbose outcome r we,
  feed_get FPD parse has_title url verbose outcome = Ok r ->
  error FPD r = Some we ->
  let '(msg, exc_info) := feed_error_log exc_name url we in
  (base_error we = None /\ exc_info = None) \/
  (exists e, base_error we = Some e /\ error_name we = "internal error"%string /\
             log_level we = ERROR /\ exc_info = Some e) \/
  (exists e, base_error we = Some e /\ error_name we = "network error"%string /\
             exc_info = None /\
             msg = ("Fetch failed (network error, " ++ exc_name e ++ ")" ++
                    (if String.eqb url "" then "" else ": " ++ url))%string).
Proof.
  intros exc_name FPD parse has_title url verbose outcome r we H He.
  unfold feed_get in H.
  destruct (feed_get_try FPD parse has_title url _ outcome) as [r0|r0 e] eqn:Ht.
  - injection H as <-. left.
    rewrite (feed_get_try_return_no_base_error _ _ _ _ _ _ _ _ Ht He). split; reflexivity.
  - destruct (catches [InvalidURL] e).
    + injection H as <-. cbn in He. injection He as <-. left. split; reflexivity.
    + destruct (catches [AsyncioTimeoutError; ClientError; SSLError; OSError; ConnectionError; TimeoutError] e).
      * injection H as <-. cbn in He. injection He as <-. right; right.
        exists e. unfold feed_error_log, web_error_log. cbn [error_name error_status base_error log_level].
        assert (Hl : ((if verbose then WARNING else DEBUG) <? ERROR) = true) by (destruct verbose; reflexivity).
        assert (Hl' : (ERROR <=? (if verbose then WARNING else DEBUG)) = false) by (destruct verbose; reflexivity).
        rewrite Hl, Hl'. cbn [negb andb truthy].
        repeat split.
        rewrite string_app_nil_r, !string_app_assoc.
        destruct (String.eqb url ""); reflexivity.
      * destruct (catches [Exception_] e); [|discriminate].
        injection H as <-. cbn in He. injection He as <-. right; left.
        exists e. repeat split.
Qed.

(** X17. [APIs.init] keeps at most one account per token, in token order.
    When it completes, every [replace_session] succeeded and the accounts
    are those of the tokens whose setup went through. An exception that
    ends it is raised by [replace_session] (any exception, outside the
    [try]) or is not an [Exception]; the accounts of the earlier tokens are
    kept, none of the later ones. *)
Theorem apis_init_outcome :
  forall tokens,
  let '(accs, esc) := apis_init tokens in
  (List.length accs <= List.length tokens)%nat /\
  (esc = None -> accs = kept tokens /\
     forall t c, In (t, c) tokens -> replace_session c = Ok tt) /\
  (forall e, esc = Some e ->
     exists before t c after, tokens = before ++ (t, c) :: after /\
       accs = kept before /\
       (replace_session c = Raise e \/
        (replace_session c = Ok tt /\ init_one (strip (list_ascii_of_string t)) c = Raise e /\
         catches [Exception_] e = false))).
Proof.
  induction tokens as [|[t c] rest IH]; cbn [apis_init].
  - split; [cbn; lia|]. split; [intros _; split; [reflexivity|intros ? ? []]|intros e H; discriminate].
  - destruct (replace_session c) as [[]|e] eqn:Hr.
    + destruct (init_one (strip (list_ascii_of_string t)) c) as [keep|e] eqn:Hi.
      * destruct (apis_init rest) as [accs esc]. destruct IH as [IHl [IHn IHs]].
        split; [destruct keep; cbn; lia|]. split.
        -- intros He. destruct (IHn He) as [Hk Hin]. split.
           ++ cbn [kept flat_map]. rewrite Hi, Hk. destruct keep; reflexivity.
           ++ intros t' c' [Heq|Hin']; [injection Heq as <- <-; exact Hr|exact (Hin _ _ Hin')].
        -- intros e He. destruct (IHs e He) as [before [t' [c' [after [Ht [Ha Hw]]]]]].
           exists ((t, c) :: before), t', c', after. split; [rewrite Ht; reflexivity|]. split; [|exact Hw].
           cbn [kept flat_map]. rewrite Hi, Ha. destruct keep; reflexivity.
      * split; [cbn; lia|]. split; [intros H; discriminate|].
        intros e' He. injection He as <-. exists [], t, c, rest. split; [reflexivity|]. split; [reflexivity|].
        right. split; [exact Hr|]. split; [exact Hi|].
        unfold init_one in Hi.
        destruct (match (if negb _ then create_account_1 c else Ok tt) with Ok _ => get_account_info c | Raise e => Raise e end) as [u|e0].
        -- discriminate.
        -- destruct (catches [TelegraphError] e0).
           ++ destruct (create_account_2 c) as [u|e2]; [discriminate|].
              destruct (catches [Exception_] e2) eqn:Hc; [discriminate|]. injection Hi as <-. exact Hc.
           ++ destruct (catches [Exception_] e0) eqn:Hc; [discriminate|]. injection Hi as <-. exact Hc.
    + split; [cbn; lia|]. split; [intros H; discriminate|].
      intros e' He. injection He as <-. exists [], t, c, rest. split; [reflexivity|]. split; [reflexivity|].
      left. exact Hr.
Qed.

(** X18. When the [try] block of [get_page_title] fails with an
    [Exception] on no response or on a response without a non-empty
    [Content-Disposition] header, and the URL parses, the result is: if
    [allow_path], the last path segment, or [None] when the path is empty
    (the hostname is then not tried); otherwise, if [allow_hostname], the
    hostname; otherwise [None]. No exception is raised. *)
Theorem get_page_title_fallback_no_cd :
  forall (soup_title_text : string -> option string) (url : string)
         (allow_hostname allow_path allow_filename : bool)
         (get_outcome : py_result WebResponse) (r : option WebResponse) (e : pyexc)
         (url_parsed : UrlLib.SplitResult),
  page_title_try soup_title_text get_outcome = TitleRaise r e ->
  issubclass e Exception_ = true ->
  match r with
  | Some r => truthy (header_get (resp_headers r) "Content-Disposition")
  | None => false
  end = false ->
  UrlLib.urlparse (list_ascii_of_string url) = Ok url_parsed ->
  get_page_title soup_title_text url allow_hostname allow_path allow_filename get_outcome =
  Ok (if allow_path then
        match UrlLib.path url_parsed with
        | [] => None
        | p => Some (string_of_list_ascii (UrlLib.path_tail p))
        end
      else if allow_hostname then option_map string_of_list_ascii (UrlLib.hostname url_parsed)
      else None).
Proof.
  intros stt url ah ap af go r e sr Htry He Hcd Hurl.
  assert (Hc : catches [Exception_] e = true)
    by (unfold catches; cbn [existsb]; rewrite He; reflexivity).
  unfold get_page_title. rewrite Htry, Hc. cbn [negb].
  assert (Hfm : (if truthy (match r with
                            | Some r => header_get (resp_headers r) "Content-Disposition"
                            | None => None end)
                 then match (match r with
                             | Some r => header_get (resp_headers r) "Content-Disposition"
                             | None => None end) with
                      | Some cd => contentDispositionFilenameParser cd
                      | None => Ok None
                      end
                 else Ok None) = Ok None).
  { destruct r as [r|]; [|reflexivity]. rewrite Hcd. reflexivity. }
  rewrite Hfm, Hurl. destruct ap; [destruct (UrlLib.path sr); reflexivity|].
  destruct ah; reflexivity.
Qed.

(** Witnesses. *)

(** X1: on [idle_helper], with the call for item 2 raising, producing 1
    and 2, running the consumer twice and producing 3 leaves 1 and 3
    started or queued, in this order. *)
Lemma queued_work_started_in_order_witness :
  let evs := [Produce 1; Produce 2; ConsumerRuns; ConsumerRuns; Produce 3] in
  spawned (run (Nat.eqb 2) idle_helper evs) ++
  filter (fun a => negb (Nat.eqb 2 a)) (works (queue (run (Nat.eqb 2) idle_helper evs)))
  = [1; 3]%nat.
Proof.
  assert (Hm : maxsize idle_helper <= 0) by (cbn; lia).
  assert (Hs : ~ In Sentinel (queue idle_helper)) by (intros []).
  destruct (queued_work_started_in_order (Nat.eqb 2)
              [Produce 1; Produce 2; ConsumerRuns; ConsumerRuns; Produce 3] idle_helper
              eq_refl Hm Hs) as [_ [_ H]].
  cbv zeta. rewrite H. reflexivity.
Defined.

(** X2: closing [idle_helper] twice leaves its consumer cancelled. *)
Lemma close_sync_twice_cancels_witness :
  consumer_task (consumer_step (fun _ => false) (fst (close_sync (fst (close_sync idle_helper))))) =
  Some DoneCancelled.
Proof.
  pose proof (close_sync_twice_cancels (fun _ => false) idle_helper eq_refl eq_refl) as H.
  destruct (close_sync idle_helper) as [s1 b1]. cbn [fst].
  destruct (close_sync s1) as [s2 b2]. cbn [fst].
  destruct H as [_ [_ [_ [_ H]]]]. exact H.
Defined.

(** X3: [close] on [idle_helper] while 7 is produced, the consumer runs
    and 8 is produced returns with the consumer finished normally. *)
Lemma close_outcome_witness :
  exists s', close (fun _ => false) idle_helper [Produce 7; ConsumerRuns; Produce 8] = Some (Ok s') /\
             consumer_task s' = Some DoneOk.
Proof.
  destruct (close_outcome (fun _ => false) idle_helper [Produce 7; ConsumerRuns; Produce 8])
    as [H _].
  destruct (H eq_refl eq_refl (or_intror (or_introl eq_refl))) as [s' [H1 [H2 _]]].
  exists s'. split; [exact H1 | exact H2].
Defined.

(** X4: after closing [idle_helper] and [init_sync], producing 7 and running
    the consumer starts nothing and finishes the consumer. *)
Lemma init_sync_after_close_sync_keeps_stop_witness :
  spawned (run (fun _ => false) (init_sync (fst (close_sync idle_helper))) [Produce 7; ConsumerRuns]) = [] /\
  consumer_task (run (fun _ => false) (init_sync (fst (close_sync idle_helper))) [Produce 7; ConsumerRuns]) =
    Some DoneOk.
Proof.
  destruct (init_sync_after_close_sync_keeps_stop (fun _ => false) idle_helper [Produce 7; ConsumerRuns]
              eq_refl eq_refl) as [_ [_ [A B]]].
  split; [exact A | apply B; right; left; reflexivity].
Defined.

(** X5: item 5 queued on [stopped_helper] is never started, and a later
    [init_sync] drops it. *)
Lemma queued_after_stop_never_started_witness :
  queued_nowait stopped_helper 5 = PutOk (mkQH [Work 5] 0 (Some DoneOk) [4]%nat) /\
  spawned (run (fun _ => false) (mkQH [Work 5] 0 (Some DoneOk) [4]%nat) [ConsumerRuns; Produce 6]) = [4%nat] /\
  queue (init_sync (run (fun _ => false) (mkQH [Work 5] 0 (Some DoneOk) [4]%nat) [ConsumerRuns; Produce 6])) = [].
Proof.
  assert (Hp : queued_nowait stopped_helper 5 = PutOk (mkQH [Work 5] 0 (Some DoneOk) [4]%nat))
    by reflexivity.
  destruct (queued_after_stop_never_started (fun _ => false) stopped_helper _ 5 [ConsumerRuns; Produce 6]
              (or_introl eq_refl) Hp) as [_ [A [B _]]].
  split; [exact Hp|]. split; [exact A | exact B].
Defined.

(** X6: a first flood-control answer makes [telegraph_ify] return no URL. *)
Lemma telegraph_ify_flood_returns_none_witness :
  fst (telegraph_ify flood_then_page (fun _ => None) (fun _ => true) 5 0 0)
  <> TReturn (Some "https://telegra.ph/p"%string).
Proof.
  exact (telegraph_ify_flood_returns_none flood_then_page (fun _ => None) (fun _ => true)
           4 0 0 3 ltac:(lia) eq_refl "https://telegra.ph/p"%string).
Defined.

(** X7: [flood_then_page] has no network failure; [telegraph_ify] with 4
    steps ends, after at most 3 calls. *)
Lemma telegraph_ify_calls_bounded_witness :
  let (r, n) := telegraph_ify flood_then_page (fun _ => None) (fun _ => true) 4 0 0 in
  (n <= 0 + (3 - 0))%nat /\ ((4 - 0 <= 4)%nat -> r <> TNoFuel).
Proof.
  assert (Hn : forall k e, flood_then_page k <> NetworkFailure e)
    by (intros [|k] e; discriminate).
  exact (telegraph_ify_calls_bounded flood_then_page (fun _ => None) (fun _ => true)
           Hn 4 0 0 ltac:(lia)).
Defined.

(** X8: flood control on every call, every [flood_wait] returning, makes
    [telegraph_ify] raise [OverflowError] after three calls. *)
Lemma telegraph_ify_three_floods_overflow_witness :
  telegraph_ify (fun _ => FloodWait 1) (fun _ => None) (fun _ => true) 4 0 0
  = (TRaise OverflowError, 3%nat).
Proof.
  destruct (telegraph_ify_three_floods_overflow (fun _ => FloodWait 1) (fun _ => None)
              (fun _ => true) 4 1 1 1 eq_refl eq_refl eq_refl ltac:(lia))
    as [e [H [_ H3]]].
  rewrite H, (H3 (fun _ _ => eq_refl)). reflexivity.
Defined.

(** X11: a small HTML page is not read. *)
Lemma medium_info_callback_type_gate_witness :
  __medium_info_callback (fun _ => DecOther OSError) html_headers [[1; 2]] = Ok (-1, -1).
Proof.
  assert (Hc : py_int (get_default html_headers "Content-Length" "1024") = Some 100)
    by (vm_compute; reflexivity).
  assert (Hi : startswith (lower (get_default html_headers "Content-Type" EmptyString)) "image"
               = false) by (vm_compute; reflexivity).
  assert (Hw : str_contains (lower (get_default html_headers "Content-Type" EmptyString)) "webp"
               = false) by (vm_compute; reflexivity).
  assert (Ho : lower (get_default html_headers "Content-Type" EmptyString)
               <> "application/octet-stream"%string) by (vm_compute; discriminate).
  exact (medium_info_callback_type_gate (fun _ => DecOther OSError) html_headers [[1; 2]] 100
           Hc (or_introl Hi) (or_introl (conj Hw Ho))).
Defined.

(** X16: the [ClientError] of a fetch of [https://example.com/feed] is
    logged as a network error naming [ClientError], with no [exc_info]. *)
Lemma feed_get_error_log_witness :
  feed_get unit (fun _ => Ok tt) (fun _ => true) "https://example.com/feed" true
           (Raise ClientError) = Ok feed_client_error /\
  error unit feed_client_error = Some (mkWebError "network error" None (Some ClientError) WARNING) /\
  feed_error_log (fun _ => "ClientError"%string) "https://example.com/feed"
    (mkWebError "network error" None (Some ClientError) WARNING) =
  ("Fetch failed (network error, ClientError): https://example.com/feed"%string, None).
Proof.
  assert (Hf : feed_get unit (fun _ => Ok tt) (fun _ => true) "https://example.com/feed" true
                 (Raise ClientError) = Ok feed_client_error) by (vm_compute; reflexivity).
  assert (He : error unit feed_client_error =
               Some (mkWebError "network error" None (Some ClientError) WARNING)) by reflexivity.
  pose proof (feed_get_error_log (fun _ => "ClientError"%string) unit (fun _ => Ok tt)
                (fun _ => true) "https://example.com/feed" true (Raise ClientError)
                feed_client_error _ Hf He) as H.
  split; [exact Hf|]. split; [exact He|].
  destruct (feed_error_log (fun _ => "ClientError"%string) "https://example.com/feed"
              (mkWebError "network error" None (Some ClientError) WARNING)) as [msg exc_info].
  destruct H as [[H _]|[[e [_ [H _]]]|[e [Hb [_ [Hx Hm]]]]]]; try discriminate.
  injection Hb as <-. rewrite Hx, Hm. reflexivity.
Defined.

(** X18: a failed fetch of [http://example.com/a/b.pdf] without a
    [Content-Disposition] header, with [allow_path], gives the path tail. *)
Lemma get_page_title_fallback_no_cd_witness :
  get_page_title (fun _ => None) "http://example.com/a/b.pdf" true true true (Ok resp_404) =
  Ok (Some "b.pdf"%string).
Proof.
  assert (Ht : page_title_try (fun _ => None) (Ok resp_404) = TitleRaise (Some resp_404) ValueError)
    by (vm_compute; reflexivity).
  assert (He : issubclass ValueError Exception_ = true) by (vm_compute; reflexivity).
  assert (Hu : UrlLib.urlparse (list_ascii_of_string "http://example.com/a/b.pdf") = Ok parsed_b_pdf)
    by (vm_compute; reflexivity).
  rewrite (get_page_title_fallback_no_cd (fun _ => None) "http://example.com/a/b.pdf"
             true true true (Ok resp_404) (Some resp_404) ValueError parsed_b_pdf
             Ht He ltac:(vm_compute; reflexivity) Hu).
  vm_compute. reflexivity.
Defined.
